(** * FCND motion planning: the flight-phase controller of [motion_planning.py]

    A shallow embedding of class [MotionPlanning]: its telemetry callbacks,
    its transition methods, the grid/local coordinate helpers, the planning
    routine [plan_path] and the waypoint generator [path_to_waypoints].

    Numbers.  The Python code computes on binary64 floats.  A float is
    represented by the rational number it denotes ([Q]); an operation that
    rounds is the exact operation followed by [b64], rounding to the nearest
    binary64 value with ties to even.  Negation, [abs], comparisons and
    [int(x)] (truncation toward zero) are exact.  Infinities and NaN are
    not represented.  Two places are written with exact operations: the
    product in the takeoff test and the sums in [path_to_waypoints]; they
    agree with the rounded ones for the target altitude 5 and for integer
    offsets.

    Collaborators that are not part of the class (the [udacidrone] base
    class, file input, [planning_utils]) are gathered in the record [Env];
    vehicle commands issued through the base class are recorded in an
    output log. *)

From Stdlib Require Import ZArith QArith Qabs Bool List Lia Lqa.
Import ListNotations.

Local Open Scope Q_scope.

(* ------------------------------------------------------------------ *)
(** ** Numeric helpers *)

(** [x < y] on floats, as a boolean. *)
Definition Qltb (x y : Q) : bool := negb (Qle_bool y x).

(** Python's [int(x)]: truncation toward zero. *)
Definition py_int (x : Q) : Z := Z.quot (Qnum x) (Z.pos (Qden x)).

(** Python's [max(a, b, c)]: the first maximal argument. *)
Definition py_max2 (a b : Q) : Q := if Qltb a b then b else a.
Definition py_max3 (a b c : Q) : Q := py_max2 (py_max2 a b) c.

(** Truthiness of a Python int. *)
Definition py_truthy (z : Z) : bool := negb (z =? 0)%Z.

(** Python's [~b] on a [bool]: bool is a subclass of int, so [~True = -2]
    and [~False = -1]. *)
Definition py_invert (b : bool) : Z := Z.lnot (Z.b2z b).

(** Three-component vectors (positions, velocities). *)
Definition Vec3 : Type := (Q * Q * Q)%type.
Definition v0 (v : Vec3) : Q := fst (fst v).
Definition v1 (v : Vec3) : Q := snd (fst v).
Definition v2 (v : Vec3) : Q := snd v.

(** *** Binary64 arithmetic *)

(** [n / d] rounded to the nearest integer, ties to even ([0 <= n]). *)
Definition round_half_even (n : Z) (d : positive) : Z :=
  let q := (n / Z.pos d)%Z in
  let r := (n mod Z.pos d)%Z in
  match (2 * r ?= Z.pos d)%Z with
  | Lt => q
  | Gt => (q + 1)%Z
  | Eq => if Z.even q then q else (q + 1)%Z
  end.

(** The binary exponent of [n / d]: the [e] with [2^e <= n/d < 2^(e+1)]. *)
Definition b64_exp (n d : positive) : Z :=
  let e0 := (Z.log2 (Z.pos n) - Z.log2 (Z.pos d))%Z in
  if (Z.pos d * 2 ^ Z.max 0 e0 <=? Z.pos n * 2 ^ Z.max 0 (- e0))%Z
  then e0 else (e0 - 1)%Z.

(** The binary64 value nearest to the positive rational [n / d]: a
    53-bit significand times [2^q], where [q] is 52 below the exponent and
    at least -1074 (subnormal numbers); the result is in lowest terms. *)
Definition b64_pos (n d : positive) : Q :=
  let q := Z.max (b64_exp n d - 52) (-1074) in
  let m := round_half_even (Z.pos n * 2 ^ Z.max 0 (- q))
             (Z.to_pos (Z.pos d * 2 ^ Z.max 0 q)) in
  Qred (Qmake (m * 2 ^ Z.max 0 q) (Z.to_pos (2 ^ Z.max 0 (- q)))).

(** Rounding to binary64. *)
Definition b64 (x : Q) : Q :=
  match Qnum x with
  | Z0 => 0
  | Zpos n => b64_pos n (Qden x)
  | Zneg n => - b64_pos n (Qden x)
  end.

(** Float [+], [-] and [*]. *)
Definition b64_add (x y : Q) : Q := b64 (x + y).
Definition b64_sub (x y : Q) : Q := b64 (x - y).
Definition b64_mul (x y : Q) : Q := b64 (x * y).

(** Float square root, correctly rounded: the root is computed to [p]
    binary digits with a sticky digit for what was cut off, then rounded. *)
Definition b64_sqrt (x : Q) : Q :=
  match Qnum x with
  | Zpos n =>
      let p := Z.max 0 (2 - Z.max (b64_exp n (Qden x) / 2 - 52) (-1074)) in
      let t := Z.sqrt (Z.pos n * 4 ^ p / Z.pos (Qden x)) in
      let sticky :=
        if (t * t * Z.pos (Qden x) =? Z.pos n * 4 ^ p)%Z then 0%Z else 1%Z in
      b64 (Qmake (2 * t + sticky) (Z.to_pos (2 ^ (p + 1))))
  | _ => 0
  end.

(** [np.linalg.norm([a, b])]: the square root of the dot product of the
    vector with itself. *)
Definition np_norm2 (a b : Q) : Q :=
  b64_sqrt (b64_add (b64_mul a a) (b64_mul b b)).

(* ------------------------------------------------------------------ *)
(** ** Data model *)

Definition TARGET_ALTITUDE : Q := 5.
Definition SAFETY_DISTANCE : Q := 5.

Inductive States : Type :=
| MANUAL | ARMING | TAKEOFF | WAYPOINT | LANDING | DISARMING | PLANNING.

Definition States_eqb (a b : States) : bool :=
  match a, b with
  | MANUAL, MANUAL | ARMING, ARMING | TAKEOFF, TAKEOFF | WAYPOINT, WAYPOINT
  | LANDING, LANDING | DISARMING, DISARMING | PLANNING, PLANNING => true
  | _, _ => false
  end.

(** A grid cell [(north_index, east_index, altitude)]. *)
Definition Cell : Type := (Z * Z * Z)%type.

(** A waypoint [[north, east, altitude, heading]]. *)
Record Waypoint : Type := mkWaypoint {
  wp_north : Q; wp_east : Q; wp_alt : Q; wp_heading : Q }.

(** [self.target_position]: the three-element array of [__init__], later
    replaced by a popped waypoint, whose fourth entry is the heading. *)
Record Target : Type := mkTarget {
  tp0 : Q; tp1 : Q; tp2 : Q; tp3 : option Q }.

Definition target_of_waypoint (w : Waypoint) : Target :=
  mkTarget (wp_north w) (wp_east w) (wp_alt w) (Some (wp_heading w)).

(** The 2.5D height map, a two-dimensional array. *)
Definition Grid : Type := list (list Q).

(** Exceptions that can escape a callback. *)
Inductive Exn : Type :=
| IndexError | TypeError | ValueError | OSError
| PathNotFound | MalformedObstacleData | UnsafeStartOrGoal.

(** Commands sent to the vehicle through the [Drone] base class. *)
Inductive Command : Type :=
| Arm | TakeControl
| Takeoff (alt : Q)
| CmdPosition (north east alt heading : Q)
| Land | Disarm | ReleaseControl | Stop
| SetHomePosition (lon lat alt : Q)
| SendWaypoints (ws : list Waypoint).

(** The object state: the fields set in [__init__] and the telemetry
    properties kept by the base class. *)
Record Drone : Type := mkDrone {
  flight_state : States;
  target_position : Target;
  waypoints : list Waypoint;
  in_mission : bool;
  interactive_goal : Vec3;
  map_grid : option Grid;
  north_offset : option Q;
  east_offset : option Q;
  path : option (list Cell);
  local_position : Vec3;
  local_velocity : Vec3;
  global_position : Vec3;
  global_home : Vec3;
  armed : bool;
  guided : bool }.

Definition set_flight_state (x : States) (s : Drone) : Drone :=
  mkDrone x (target_position s) (waypoints s) (in_mission s)
    (interactive_goal s) (map_grid s) (north_offset s) (east_offset s) (path s)
    (local_position s) (local_velocity s) (global_position s) (global_home s)
    (armed s) (guided s).

Definition set_target_position (x : Target) (s : Drone) : Drone :=
  mkDrone (flight_state s) x (waypoints s) (in_mission s)
    (interactive_goal s) (map_grid s) (north_offset s) (east_offset s) (path s)
    (local_position s) (local_velocity s) (global_position s) (global_home s)
    (armed s) (guided s).

Definition set_waypoints (x : list Waypoint) (s : Drone) : Drone :=
  mkDrone (flight_state s) (target_position s) x (in_mission s)
    (interactive_goal s) (map_grid s) (north_offset s) (east_offset s) (path s)
    (local_position s) (local_velocity s) (global_position s) (global_home s)
    (armed s) (guided s).

Definition set_in_mission (x : bool) (s : Drone) : Drone :=
  mkDrone (flight_state s) (target_position s) (waypoints s) x
    (interactive_goal s) (map_grid s) (north_offset s) (east_offset s) (path s)
    (local_position s) (local_velocity s) (global_position s) (global_home s)
    (armed s) (guided s).

Definition set_interactive_goal (x : Vec3) (s : Drone) : Drone :=
  mkDrone (flight_state s) (target_position s) (waypoints s) (in_mission s)
    x (map_grid s) (north_offset s) (east_offset s) (path s)
    (local_position s) (local_velocity s) (global_position s) (global_home s)
    (armed s) (guided s).

Definition set_grid (g : Grid) (no eo : Q) (s : Drone) : Drone :=
  mkDrone (flight_state s) (target_position s) (waypoints s) (in_mission s)
    (interactive_goal s) (Some g) (Some no) (Some eo) (path s)
    (local_position s) (local_velocity s) (global_position s) (global_home s)
    (armed s) (guided s).

Definition set_path (x : list Cell) (s : Drone) : Drone :=
  mkDrone (flight_state s) (target_position s) (waypoints s) (in_mission s)
    (interactive_goal s) (map_grid s) (north_offset s) (east_offset s) (Some x)
    (local_position s) (local_velocity s) (global_position s) (global_home s)
    (armed s) (guided s).

Definition set_local_position (x : Vec3) (s : Drone) : Drone :=
  mkDrone (flight_state s) (target_position s) (waypoints s) (in_mission s)
    (interactive_goal s) (map_grid s) (north_offset s) (east_offset s) (path s)
    x (local_velocity s) (global_position s) (global_home s)
    (armed s) (guided s).

Definition set_local_velocity (x : Vec3) (s : Drone) : Drone :=
  mkDrone (flight_state s) (target_position s) (waypoints s) (in_mission s)
    (interactive_goal s) (map_grid s) (north_offset s) (east_offset s) (path s)
    (local_position s) x (global_position s) (global_home s)
    (armed s) (guided s).

Definition set_global_position (x : Vec3) (s : Drone) : Drone :=
  mkDrone (flight_state s) (target_position s) (waypoints s) (in_mission s)
    (interactive_goal s) (map_grid s) (north_offset s) (east_offset s) (path s)
    (local_position s) (local_velocity s) x (global_home s)
    (armed s) (guided s).

Definition set_global_home (x : Vec3) (s : Drone) : Drone :=
  mkDrone (flight_state s) (target_position s) (waypoints s) (in_mission s)
    (interactive_goal s) (map_grid s) (north_offset s) (east_offset s) (path s)
    (local_position s) (local_velocity s) (global_position s) x
    (armed s) (guided s).

Definition set_status (a g : bool) (s : Drone) : Drone :=
  mkDrone (flight_state s) (target_position s) (waypoints s) (in_mission s)
    (interactive_goal s) (map_grid s) (north_offset s) (east_offset s) (path s)
    (local_position s) (local_velocity s) (global_position s) (global_home s)
    a g.

(** [MotionPlanning.__init__]: the telemetry properties start at the values
    the base class gives them. *)
Definition init : Drone :=
  mkDrone MANUAL (mkTarget 0 0 0 None) [] true
    (-(12240017151 # 100000000), 377962347 # 10000000, 0)
    None None None None
    (0, 0, 0) (0, 0, 0) (0, 0, 0) (0, 0, 0) false false.

(* ------------------------------------------------------------------ *)
(** ** The callback monad: object state, command log, exceptions

    A computation takes the object state and returns the state as mutated so
    far, the commands issued so far, and either a result or the exception
    that interrupted it. *)

Definition M (A : Type) : Type := Drone -> Drone * list Command * (Exn + A).

Definition ret {A} (a : A) : M A := fun s => (s, [], inr a).

Definition bind {A B} (m : M A) (f : A -> M B) : M B :=
  fun s =>
    match m s with
    | (s1, c1, inl e) => (s1, c1, inl e)
    | (s1, c1, inr a) =>
        match f a s1 with
        | (s2, c2, r) => (s2, c1 ++ c2, r)
        end
    end.

Definition raise {A} (e : Exn) : M A := fun s => (s, [], inl e).
Definition get : M Drone := fun s => (s, [], inr s).
Definition modify (f : Drone -> Drone) : M unit := fun s => (f s, [], inr tt).
Definition emit (c : Command) : M unit := fun s => (s, [c], inr tt).
Definition lift {A} (r : Exn + A) : M A :=
  match r with inl e => raise e | inr a => ret a end.
Definition pass : M unit := ret tt.

Declare Scope drone_scope.
Delimit Scope drone_scope with drone.
Notation "x <- m ;; k" := (bind m (fun x => k))
  (at level 61, m at next level, right associativity) : drone_scope.
Notation "' p <- m ;; k" := (bind m (fun x => let p := x in k))
  (at level 61, p pattern, m at next level, right associativity) : drone_scope.
Notation "m ;; k" := (bind m (fun _ => k))
  (at level 61, right associativity) : drone_scope.
Local Open Scope drone_scope.

Definition state_of {A} (r : Drone * list Command * (Exn + A)) : Drone :=
  fst (fst r).
Definition cmds_of {A} (r : Drone * list Command * (Exn + A)) : list Command :=
  snd (fst r).
Definition result_of {A} (r : Drone * list Command * (Exn + A)) : Exn + A :=
  snd r.

(* ------------------------------------------------------------------ *)
(** ** Coordinate helpers *)

(** [grid_to_local(grid_coord)], with [self.north_offset] and
    [self.east_offset] passed explicitly. *)
Definition grid_to_local (no eo : Q) (grid_coord : Vec3) : Vec3 :=
  let lat := b64_add (v0 grid_coord) no in
  let lon := b64_add (v1 grid_coord) eo in
  (lat, lon, - v2 grid_coord).

(** [local_to_grid(position)]. *)
Definition local_to_grid (no eo : Q) (position : Vec3) : Cell :=
  let north := py_int (b64_sub (v0 position) no) in
  let east := py_int (b64_sub (v1 position) eo) in
  let alt := py_int (- v2 position) in
  (north, east, alt).

(** A grid cell seen as a coordinate triple. *)
Definition cell_coord (c : Cell) : Vec3 :=
  (inject_Z (fst (fst c)), inject_Z (snd (fst c)), inject_Z (snd c)).

(** Indexing one axis of an array: a negative index counts from the end,
    an index out of range raises [IndexError]. *)
Definition np_index {A} (l : list A) (i : Z) : Exn + A :=
  let n := Z.of_nat (length l) in
  let j := (if i <? 0 then i + n else i)%Z in
  if ((0 <=? j) && (j <? n))%Z then
    match nth_error l (Z.to_nat j) with
    | Some a => inr a
    | None => inl IndexError
    end
  else inl IndexError.

(** [grid[i, j]]. *)
Definition grid_at (g : Grid) (i j : Z) : Exn + Q :=
  match np_index g i with
  | inl e => inl e
  | inr row => np_index row j
  end.

(* ------------------------------------------------------------------ *)
(** ** Collaborators outside the class *)

Record Env : Type := mkEnv {
  (** the first line of [colliders.csv], parsed: [(lat, lon)] *)
  read_header : Exn + (Q * Q);
  (** [np.loadtxt('colliders.csv', ...)] *)
  load_obstacles : Exn + list (list Q);
  (** [planning_utils.create_grid(data, safety_distance)] *)
  create_grid : list (list Q) -> Q -> Exn + (Grid * Q * Q);
  (** [udacidrone.frame_utils] *)
  global_to_local : Vec3 -> Vec3 -> Vec3;
  local_to_global : Vec3 -> Vec3 -> Vec3;
  (** [planning_utils.pickup_goal]: the [(xdata, ydata)] of the pick events
      it delivers to [pick_goal] while the map is shown *)
  pickup_goal : Grid -> Cell -> list (Q * Q);
  (** [planning_utils.a_star(grid, heuristic, start, goal, altitude)] *)
  a_star : Grid -> Cell -> Cell -> Q -> Exn + list Cell;
  (** [planning_utils.path_prune(path, collinear_points)] *)
  path_prune : list Cell -> Exn + list Cell;
  (** [planning_utils.path_simplify(grid, path)] *)
  path_simplify : Grid -> list Cell -> Exn + list Cell;
  (** [np.arctan2(y, x)] *)
  arctan2 : Q -> Q -> Q }.

(* ------------------------------------------------------------------ *)
(** ** Waypoint generation *)

Section Waypoints.
Variable atan2 : Q -> Q -> Q.
Variables no eo : Q.

Definition cell0 : Cell := (0, 0, 0)%Z.
Definition c0 (c : Cell) : Z := fst (fst c).
Definition c1 (c : Cell) : Z := snd (fst c).
Definition c2 (c : Cell) : Z := snd c.

(** The body of the loop of [path_to_waypoints] at index [i]. *)
Definition waypoint_at (path : list Cell) (i : nat) : Waypoint :=
  let p := nth i path cell0 in
  let p_prev := if (0 <? i)%nat then Some (nth (i - 1) path cell0) else None in
  let orientation :=
    match p_prev with
    | Some q => atan2 (inject_Z (c1 p - c1 q)) (inject_Z (c0 p - c0 q))
    | None => 0
    end in
  mkWaypoint (inject_Z (c0 p) + no) (inject_Z (c1 p) + eo) (inject_Z (c2 p))
    orientation.

(** [path_to_waypoints(path)]. *)
Definition path_to_waypoints (path : list Cell) : list Waypoint :=
  map (waypoint_at path) (seq 0 (length path)).
End Waypoints.

(* ------------------------------------------------------------------ *)
(** ** Transitions *)

Definition arming_transition : M unit :=
  modify (set_flight_state ARMING) ;;
  emit Arm ;;
  emit TakeControl.

Definition takeoff_transition : M unit :=
  modify (set_flight_state TAKEOFF) ;;
  s <- get ;;
  emit (Takeoff (tp2 (target_position s))).

(** [self.waypoints.pop(0)]. *)
Definition waypoints_pop0 : M Waypoint :=
  s <- get ;;
  match waypoints s with
  | [] => raise IndexError
  | w :: ws => modify (set_waypoints ws) ;; ret w
  end.

Definition waypoint_transition : M unit :=
  modify (set_flight_state WAYPOINT) ;;
  w <- waypoints_pop0 ;;
  modify (set_target_position (target_of_waypoint w)) ;;
  s <- get ;;
  let t := target_position s in
  heading <- lift (match tp3 t with Some h => inr h | None => inl IndexError end) ;;
  emit (CmdPosition (tp0 t) (tp1 t) (tp2 t) heading).

Definition landing_transition : M unit :=
  modify (set_flight_state LANDING) ;;
  emit Land.

Definition disarming_transition : M unit :=
  modify (set_flight_state DISARMING) ;;
  emit Disarm ;;
  emit ReleaseControl.

Definition manual_transition : M unit :=
  modify (set_flight_state MANUAL) ;;
  emit Stop ;;
  modify (set_in_mission false).

(* ------------------------------------------------------------------ *)
(** ** Planning *)

Section Planning.
Variable env : Env.

(** [pick_goal(event)], for a pick event at [(xdata, ydata)]; the drawing
    on the figure is left out. *)
Definition pick_goal (ev : Q * Q) : M unit :=
  let east := py_int (fst ev) in
  let north := py_int (snd ev) in
  s <- get ;;
  alt <- lift (match map_grid s with
               | Some g => grid_at g north east
               | None => inl TypeError
               end) ;;
  offs <- lift (match north_offset s, east_offset s with
                | Some no, Some eo => inr (no, eo)
                | _, _ => inl TypeError
                end) ;;
  modify (set_interactive_goal
            (local_to_global env
               (grid_to_local (fst offs) (snd offs)
                  (inject_Z north, inject_Z east, alt))
               (global_home s))).

Fixpoint pick_goals (evs : list (Q * Q)) : M unit :=
  match evs with
  | [] => pass
  | ev :: rest => pick_goal ev ;; pick_goals rest
  end.

Definition plan_path : M unit :=
  modify (set_flight_state PLANNING) ;;
  modify (fun s =>
    let t := target_position s in
    set_target_position (mkTarget (tp0 t) (tp1 t) TARGET_ALTITUDE (tp3 t)) s) ;;
  hdr <- lift (read_header env) ;;
  let lat := fst hdr in
  let lon := snd hdr in
  let home_position : Vec3 := (lon, lat, 0) in
  emit (SetHomePosition lon lat 0) ;;
  s <- get ;;
  let local_pos := global_to_local env (global_position s) home_position in
  data <- lift (load_obstacles env) ;;
  gno <- lift (create_grid env data SAFETY_DISTANCE) ;;
  let grid := fst (fst gno) in
  let no := snd (fst gno) in
  let eo := snd gno in
  modify (set_grid grid no eo) ;;
  let gs := local_to_grid no eo local_pos in
  h_start <- lift (grid_at grid (c0 gs) (c1 gs)) ;;
  let alt_start :=
    py_int (py_max3 TARGET_ALTITUDE (inject_Z (c2 gs) + 1)
              (b64_add h_start 1)) in
  let grid_start : Cell := (c0 gs, c1 gs, alt_start) in
  pick_goals (pickup_goal env grid grid_start) ;;
  s <- get ;;
  let goal := interactive_goal s in
  let goal_local := global_to_local env goal (global_home s) in
  let goal_grid := local_to_grid no eo goal_local in
  h_goal <- lift (grid_at grid (c0 goal_grid) (c1 goal_grid)) ;;
  let grid_goal : Cell :=
    (c0 goal_grid, c1 goal_grid,
     py_int (py_max3 (b64_add h_goal 1) TARGET_ALTITUDE
               (inject_Z (c2 goal_grid) + 1))) in
  p <- lift (a_star env grid grid_start grid_goal TARGET_ALTITUDE) ;;
  p <- lift (path_prune env p) ;;
  p <- lift (path_simplify env grid p) ;;
  modify (set_path p) ;;
  let wps := path_to_waypoints (arctan2 env) no eo p in
  modify (set_waypoints wps) ;;
  emit (SendWaypoints wps).

(* ---------------------------------------------------------------- *)
(** ** Telemetry callbacks *)

(** In the takeoff test the product [0.95 * target] is written exactly;
    for the target altitude 5, which [plan_path] sets, the binary64 product
    is 4.75 as well. *)
Definition local_position_callback : M unit :=
  s <- get ;;
  if States_eqb (flight_state s) TAKEOFF then
    if Qltb ((95 # 100) * tp2 (target_position s))
            (-(1) * v2 (local_position s))
    then waypoint_transition else pass
  else if States_eqb (flight_state s) WAYPOINT then
    if Qltb (np_norm2
               (b64_sub (tp0 (target_position s)) (v0 (local_position s)))
               (b64_sub (tp1 (target_position s)) (v1 (local_position s)))) 3
       && Qltb (Qabs (b64_sub (tp2 (target_position s))
                        (- v2 (local_position s)))) 2
    then
      if (0 <? length (waypoints s))%nat then waypoint_transition
      else if Qltb (np_norm2 (v0 (local_velocity s)) (v1 (local_velocity s))) 1
           then landing_transition else pass
    else pass
  else pass.

Definition velocity_callback : M unit :=
  s <- get ;;
  if States_eqb (flight_state s) LANDING then
    if Qltb (b64_sub (v2 (global_position s)) (v2 (global_home s)))
            (b64 (1 # 10)) then
      if Qltb (Qabs (v2 (local_position s))) (b64 (1 # 100))
      then disarming_transition else pass
    else pass
  else pass.

Definition state_callback : M unit :=
  s <- get ;;
  if in_mission s then
    if States_eqb (flight_state s) MANUAL then arming_transition
    else if States_eqb (flight_state s) ARMING then
      if armed s then plan_path else pass
    else if States_eqb (flight_state s) PLANNING then takeoff_transition
    else if States_eqb (flight_state s) DISARMING then
      if py_truthy (Z.land (py_invert (armed s)) (py_invert (guided s)))
      then manual_transition else pass
    else pass
  else pass.

(** Telemetry messages.  The base class stores the payload in the
    matching property and then runs the callbacks registered for the
    message; no callback is registered for the two global messages. *)
Inductive Event : Type :=
| LOCAL_POSITION (north east down : Q)
| LOCAL_VELOCITY (vn ve vd : Q)
| STATE (is_armed is_guided : bool)
| GLOBAL_POSITION (lon lat alt : Q)
| GLOBAL_HOME (lon lat alt : Q).

Definition dispatch (ev : Event) : M unit :=
  match ev with
  | LOCAL_POSITION n e d =>
      modify (set_local_position (n, e, d)) ;; local_position_callback
  | LOCAL_VELOCITY vn ve vd =>
      modify (set_local_velocity (vn, ve, vd)) ;; velocity_callback
  | STATE a g =>
      modify (set_status a g) ;; state_callback
  | GLOBAL_POSITION lon lat alt =>
      modify (set_global_position (lon, lat, alt))
  | GLOBAL_HOME lon lat alt =>
      modify (set_global_home (lon, lat, alt))
  end.

(** What one event produced: the phase after it, the commands it issued
    and the exception that escaped its callback, if any. *)
Record Step : Type := mkStep {
  step_phase : States;
  step_cmds : list Command;
  step_exn : option Exn }.

Definition step_of (r : Drone * list Command * (Exn + unit)) : Step :=
  mkStep (flight_state (state_of r)) (cmds_of r)
    (match result_of r with inl e => Some e | inr _ => None end).

(** Events are handled one at a time; an exception ends the callback it
    escapes from and leaves the object as mutated so far. *)
Fixpoint run (s : Drone) (evs : list Event) : Drone * list Step :=
  match evs with
  | [] => (s, [])
  | ev :: rest =>
      let r := dispatch ev s in
      let '(s', tr) := run (state_of r) rest in
      (s', step_of r :: tr)
  end.

Definition trace (s : Drone) (evs : list Event) : list Step :=
  snd (run s evs).
Definition final (s : Drone) (evs : list Event) : Drone :=
  fst (run s evs).
End Planning.

(* ------------------------------------------------------------------ *)
(** ** Test environments and auxiliary notions

    A 10 x 10 map without obstacles whose origin is at local (-5, -5), a
    crude flat projection, no interactive pick, and a planner that answers
    with the straight two-cell path. *)

(** [(lat0, lon0)] of the map. *)
Definition sample_home : Q * Q := (3779248 # 100000, -(12239745 # 100000)).

Definition sample_grid : Grid := repeat (repeat 0 10) 10.

Definition flat_global_to_local (p h : Vec3) : Vec3 :=
  ((v1 p - v1 h) * 1000, (v0 p - v0 h) * 1000, - (v2 p - v2 h)).

Definition flat_local_to_global (l h : Vec3) : Vec3 :=
  (v1 l / 1000 + v0 h, v0 l / 1000 + v1 h, - v2 l + v2 h).

Definition sample_env : Env :=
  mkEnv (inr sample_home) (inr [[0; 0; 0; 5; 5; 0]])
    (fun _ _ => inr (sample_grid, -(5), -(5)))
    flat_global_to_local flat_local_to_global
    (fun _ _ => [])
    (fun _ a b _ => inr [a; b])
    (fun p => inr p)
    (fun _ p => inr p)
    (fun y x => y - x).

(** The same environment with a planner that finds no path. *)
Definition no_path_env : Env :=
  mkEnv (read_header sample_env) (load_obstacles sample_env)
    (create_grid sample_env) (global_to_local sample_env)
    (local_to_global sample_env) (pickup_goal sample_env)
    (fun _ _ _ _ => inl PathNotFound)
    (path_prune sample_env) (path_simplify sample_env) (arctan2 sample_env).

(** The same environment with an obstacle file that [np.loadtxt] rejects. *)
Definition bad_data_env : Env :=
  mkEnv (read_header sample_env) (inl ValueError)
    (create_grid sample_env) (global_to_local sample_env)
    (local_to_global sample_env) (pickup_goal sample_env)
    (a_star sample_env)
    (path_prune sample_env) (path_simplify sample_env) (arctan2 sample_env).

(** The same environment with a planner that answers with an empty path. *)
Definition empty_path_env : Env :=
  mkEnv (read_header sample_env) (load_obstacles sample_env)
    (create_grid sample_env) (global_to_local sample_env)
    (local_to_global sample_env) (pickup_goal sample_env)
    (fun _ _ _ _ => inr [])
    (path_prune sample_env) (path_simplify sample_env) (arctan2 sample_env).

(** Telemetry up to the end of planning: the vehicle sits at the map's
    home position, is armed, and the plan is made. *)
Definition sample_prefix : list Event :=
  [ GLOBAL_POSITION (snd sample_home) (fst sample_home) 0;
    GLOBAL_HOME (snd sample_home) (fst sample_home) 0;
    STATE false false;
    STATE true true ].

(** The state after a successful [waypoint_transition] that popped [w]. *)
Definition after_waypoint (w : Waypoint) (ws : list Waypoint) (s : Drone) : Drone :=
  set_target_position (target_of_waypoint w)
    (set_waypoints ws (set_flight_state WAYPOINT s)).

(** The position command for waypoint [w]. *)
Definition cmd_of_waypoint (w : Waypoint) : Command :=
  CmdPosition (wp_north w) (wp_east w) (wp_alt w) (wp_heading w).

(** A state in phase Takeoff and one in phase Waypoint, as reached with the
    test environment. *)
Definition sample_takeoff_state : Drone :=
  final sample_env init (sample_prefix ++ [STATE true true]).

Definition sample_waypoint_state : Drone :=
  final sample_env init
    (sample_prefix ++ [STATE true true; LOCAL_POSITION 0 0 (-(5))]).

(** A complete mission flown with the test environment, up to the
    disarm command: plan, take off, fly the two waypoints, land. *)
Definition sample_mission : list Event :=
  sample_prefix ++
  [ STATE true true;
    LOCAL_POSITION 0 0 (-(5));
    LOCAL_POSITION 0 0 (-(5));
    LOCAL_POSITION 3 (-(3)) (-(5));
    LOCAL_POSITION 3 (-(3)) 0;
    LOCAL_VELOCITY 0 0 0 ].

Definition sample_disarming_state : Drone := final sample_env init sample_mission.

(** Status messages, as opposed to the other telemetry. *)
Definition is_status (ev : Event) : bool :=
  match ev with STATE _ _ => true | _ => false end.

(** A step in which nothing happened in phase Manual. *)
Definition quiet_step : Step := mkStep MANUAL [] None.

(** What [pick_goal] leaves alone. *)
Definition mission_frame (s s' : Drone) : Prop :=
  flight_state s' = flight_state s /\ in_mission s' = in_mission s /\
  waypoints s' = waypoints s /\ target_position s' = target_position s.

(** The test vehicle armed and waiting for the armed-confirmed event. *)
Definition sample_arming_state : Drone :=
  final sample_env init (firstn 3 sample_prefix).

(** Telemetry of a mission whose plan is empty, up to the takeoff command. *)
Definition empty_plan_prefix : list Event := sample_prefix ++ [STATE true true].

(* ------------------------------------------------------------------ *)
(** ** The transition table

    What handling one event can amount to: the state [s] before, the
    outcome [r] of the dispatch. *)

(** The commands [plan_path] may send. *)
Definition planning_cmd (c : Command) : Prop :=
  match c with
  | SetHomePosition _ _ _ | SendWaypoints _ => True
  | _ => False
  end.

Inductive TableRow (s : Drone) (r : Drone * list Command * (Exn + unit)) : Prop :=
| row_quiet :
    cmds_of r = [] -> result_of r = inr tt ->
    flight_state (state_of r) = flight_state s ->
    in_mission (state_of r) = in_mission s ->
    waypoints (state_of r) = waypoints s ->
    target_position (state_of r) = target_position s ->
    TableRow s r
| row_arm :
    flight_state s = MANUAL -> in_mission s = true ->
    flight_state (state_of r) = ARMING ->
    cmds_of r = [Arm; TakeControl] -> result_of r = inr tt ->
    in_mission (state_of r) = in_mission s ->
    waypoints (state_of r) = waypoints s ->
    target_position (state_of r) = target_position s ->
    TableRow s r
| row_plan :
    flight_state s = ARMING -> in_mission s = true ->
    flight_state (state_of r) = PLANNING ->
    Forall planning_cmd (cmds_of r) ->
    in_mission (state_of r) = in_mission s ->
    TableRow s r
| row_takeoff :
    flight_state s = PLANNING -> in_mission s = true ->
    flight_state (state_of r) = TAKEOFF ->
    cmds_of r = [Takeoff (tp2 (target_position s))] -> result_of r = inr tt ->
    in_mission (state_of r) = in_mission s ->
    waypoints (state_of r) = waypoints s ->
    target_position (state_of r) = target_position s ->
    TableRow s r
| row_next_waypoint (w : Waypoint) :
    flight_state s = TAKEOFF \/ flight_state s = WAYPOINT ->
    waypoints s = w :: waypoints (state_of r) ->
    flight_state (state_of r) = WAYPOINT ->
    cmds_of r = [cmd_of_waypoint w] -> result_of r = inr tt ->
    in_mission (state_of r) = in_mission s ->
    target_position (state_of r) = target_of_waypoint w ->
    TableRow s r
| row_empty_pop :
    flight_state s = TAKEOFF -> waypoints s = [] ->
    flight_state (state_of r) = WAYPOINT ->
    cmds_of r = [] -> result_of r = inl IndexError ->
    in_mission (state_of r) = in_mission s ->
    waypoints (state_of r) = [] ->
    target_position (state_of r) = target_position s ->
    TableRow s r
| row_land :
    flight_state s = WAYPOINT -> waypoints s = [] ->
    flight_state (state_of r) = LANDING ->
    cmds_of r = [Land] -> result_of r = inr tt ->
    in_mission (state_of r) = in_mission s ->
    waypoints (state_of r) = [] ->
    target_position (state_of r) = target_position s ->
    TableRow s r
| row_disarm :
    flight_state s = LANDING ->
    flight_state (state_of r) = DISARMING ->
    cmds_of r = [Disarm; ReleaseControl] -> result_of r = inr tt ->
    in_mission (state_of r) = in_mission s ->
    waypoints (state_of r) = waypoints s ->
    target_position (state_of r) = target_position s ->
    TableRow s r
| row_finish :
    flight_state s = DISARMING -> in_mission s = true ->
    flight_state (state_of r) = MANUAL ->
    cmds_of r = [Stop] -> result_of r = inr tt ->
    in_mission (state_of r) = false ->
    waypoints (state_of r) = waypoints s ->
    target_position (state_of r) = target_position s ->
    TableRow s r.

(** The edges of the phase graph; every phase may also stay as it is. *)
Definition allowed_edge (a b : States) : bool :=
  match a, b with
  | MANUAL, ARMING | ARMING, PLANNING | PLANNING, TAKEOFF | TAKEOFF, WAYPOINT
  | WAYPOINT, LANDING | LANDING, DISARMING | DISARMING, MANUAL => true
  | _, _ => States_eqb a b
  end.

(** Consecutive elements of a list are related by [f]. *)
Fixpoint chain (f : States -> States -> bool) (a : States) (l : list States) : bool :=
  match l with
  | [] => true
  | b :: rest => f a b && chain f b rest
  end.

(** The position commands among a list of commands. *)
Definition is_cmd_position (c : Command) : bool :=
  match c with CmdPosition _ _ _ _ => true | _ => false end.

Definition position_cmds (cs : list Command) : list Command :=
  filter is_cmd_position cs.

(** All commands of a trace, in order. *)
Definition trace_cmds (tr : list Step) : list Command :=
  concat (map step_cmds tr).

(** The plan has been made (or the mission is over): the queue is no longer
    replaced. *)
Definition planned (s : Drone) : Prop :=
  (flight_state s <> MANUAL /\ flight_state s <> ARMING) \/ in_mission s = false.

(** What phase the controller is in before and after it issues a
    command. *)
Definition issued_on (c : Command) (s s' : Drone) : Prop :=
  match c with
  | Arm | TakeControl => flight_state s = MANUAL /\ flight_state s' = ARMING
  | SetHomePosition _ _ _ | SendWaypoints _ =>
      flight_state s = ARMING /\ flight_state s' = PLANNING
  | Takeoff a =>
      flight_state s = PLANNING /\ flight_state s' = TAKEOFF /\
      a = tp2 (target_position s)
  | CmdPosition n e a h =>
      (flight_state s = TAKEOFF \/ flight_state s = WAYPOINT) /\
      flight_state s' = WAYPOINT /\
      exists w, waypoints s = w :: waypoints s' /\
                CmdPosition n e a h = cmd_of_waypoint w
  | Land =>
      flight_state s = WAYPOINT /\ flight_state s' = LANDING /\ waypoints s = []
  | Disarm | ReleaseControl =>
      flight_state s = LANDING /\ flight_state s' = DISARMING
  | Stop => flight_state s = DISARMING /\ flight_state s' = MANUAL
  end.

(** A state with the test map loaded, as [plan_path] leaves it. *)
Definition sample_planned_state : Drone := final sample_env init sample_prefix.

(** The position event that reports the vehicle exactly at waypoint [w]. *)
Definition arrival (w : Waypoint) : Event :=
  LOCAL_POSITION (wp_north w) (wp_east w) (- wp_alt w).

(* ------------------------------------------------------------------ *)
(** * Properties *)

(** ** Numeric facts *)

Lemma Qltb_lt (x y : Q) : Qltb x y = true <-> x < y.
Proof.
  unfold Qltb. rewrite negb_true_iff. split; intro H.
  - apply Qnot_le_lt. intro L. apply Qle_bool_iff in L. congruence.
  - destruct (Qle_bool y x) eqn:E; [|reflexivity].
    apply Qle_bool_iff in E. exfalso. exact (Qlt_not_le _ _ H E).
Qed.

Lemma Qltb_nlt (x y : Q) : Qltb x y = false <-> ~ x < y.
Proof.
  rewrite <- Qltb_lt. destruct (Qltb x y); split; congruence.
Qed.

Lemma py_int_Qeq (x y : Q) : x == y -> py_int x = py_int y.
Proof.
  unfold py_int, Qeq. destruct x as [a b], y as [c d]. simpl. intro H.
  assert (Hb : (Z.pos b <> 0)%Z) by lia.
  assert (Hd : (Z.pos d <> 0)%Z) by lia.
  rewrite <- (Z.quot_mul_cancel_r a (Z.pos b) (Z.pos d)) by assumption.
  rewrite <- (Z.quot_mul_cancel_r c (Z.pos d) (Z.pos b)) by assumption.
  rewrite H. f_equal. lia.
Qed.

Lemma py_int_inject_Z (z : Z) : py_int (inject_Z z) = z.
Proof. unfold py_int. simpl. apply Z.quot_1_r. Qed.

Example py_invert_values :
  py_invert true = (-2)%Z /\ py_invert false = (-1)%Z /\
  Z.land (py_invert true) (py_invert true) = (-2)%Z /\
  Z.land (py_invert true) (py_invert false) = (-2)%Z /\
  Z.land (py_invert false) (py_invert false) = (-1)%Z.
Proof. repeat split. Qed.

(** [~a & ~g] is truthy for all four values of the two flags. *)
Lemma py_invert_guard (a g : bool) :
  py_truthy (Z.land (py_invert a) (py_invert g)) = true.
Proof. destruct a, g; reflexivity. Qed.

(** ** Binary64 rounding of integers *)

Lemma b64_ext (x y : Q) : Qnum x = Qnum y -> Qden x = Qden y -> b64 x = b64 y.
Proof. intros H1 H2. unfold b64. now rewrite H1, H2. Qed.

Lemma b64_zero (x : Q) : Qnum x = 0%Z -> b64 x = 0.
Proof. intro H. unfold b64. now rewrite H. Qed.

Lemma Qred_inject_Z (z : Z) : Qred (inject_Z z) = inject_Z z.
Proof.
  pose proof (Qred_correct (inject_Z z)) as H.
  pose proof (gcd_Qred (inject_Z z)) as G.
  destruct (Qred (inject_Z z)) as [a b]. unfold Qeq in H. simpl in H, G.
  assert (D : (Z.pos b | 1)%Z).
  { rewrite <- G. apply Z.gcd_greatest; [|apply Z.divide_refl].
    exists z. lia. }
  apply Z.divide_1_r_nonneg in D; [|lia].
  assert (b = 1%positive) by lia. subst b.
  unfold inject_Z. f_equal. lia.
Qed.

(** A positive integer below [2^53] is a binary64 value. *)
Lemma b64_pos_int (n : positive) :
  (Z.pos n < 2 ^ 53)%Z -> b64_pos n 1 = inject_Z (Z.pos n).
Proof.
  intro Hn.
  assert (HL := Z.log2_spec (Z.pos n) ltac:(lia)).
  assert (HL0 : (0 <= Z.log2 (Z.pos n))%Z) by apply Z.log2_nonneg.
  assert (HL53 : (Z.log2 (Z.pos n) < 53)%Z)
    by (apply Z.log2_lt_pow2; lia).
  set (L := Z.log2 (Z.pos n)) in *.
  assert (E : b64_exp n 1 = L).
  { unfold b64_exp. change (Z.log2 (Z.pos 1)) with 0%Z. fold L.
    rewrite Z.sub_0_r, (Z.max_r 0 L), (Z.max_l 0 (- L)) by lia.
    rewrite Z.pow_0_r, Z.mul_1_r, Z.mul_1_l.
    destruct (Z.leb_spec (2 ^ L) (Z.pos n)); [reflexivity|lia]. }
  unfold b64_pos. rewrite E.
  rewrite (Z.max_l (L - 52) (-1074)) by lia.
  rewrite (Z.max_r 0 (- (L - 52))), (Z.max_l 0 (L - 52)) by lia.
  rewrite Z.pow_0_r, !Z.mul_1_r.
  change (Z.to_pos 1) with 1%positive.
  set (k := (- (L - 52))%Z).
  assert (Hk : (0 < 2 ^ k)%Z) by (apply Z.pow_pos_nonneg; lia).
  assert (R : round_half_even (Z.pos n * 2 ^ k) 1 = (Z.pos n * 2 ^ k)%Z).
  { unfold round_half_even. rewrite Z.div_1_r, Z.mod_1_r. reflexivity. }
  rewrite R.
  rewrite <- (Qred_inject_Z (Z.pos n)).
  apply Qred_complete. unfold Qeq, inject_Z. cbn [Qnum Qden].
  rewrite Z2Pos.id by exact Hk. ring.
Qed.

Lemma b64_int (z : Z) : (Z.abs z < 2 ^ 53)%Z -> b64 (inject_Z z) = inject_Z z.
Proof.
  intro H. destruct z as [|n|n]; [reflexivity| |].
  - change (b64 (inject_Z (Z.pos n))) with (b64_pos n 1).
    apply b64_pos_int. lia.
  - change (b64 (inject_Z (Z.neg n))) with (- b64_pos n 1).
    rewrite b64_pos_int by lia. reflexivity.
Qed.

(** Sums and differences of integers that stay below [2^53] are exact. *)
Lemma b64_add_int (n o : Z) :
  (Z.abs (n + o) < 2 ^ 53)%Z ->
  b64_add (inject_Z n) (inject_Z o) = inject_Z (n + o).
Proof.
  intro H. unfold b64_add. rewrite <- (b64_int (n + o)) by exact H.
  apply b64_ext; simpl; [lia|reflexivity].
Qed.

Lemma b64_sub_int (m o : Z) :
  (Z.abs (m - o) < 2 ^ 53)%Z ->
  b64_sub (inject_Z m) (inject_Z o) = inject_Z (m - o).
Proof.
  intro H. unfold b64_sub. rewrite <- (b64_int (m - o)) by exact H.
  apply b64_ext; simpl; [lia|reflexivity].
Qed.

Lemma b64_sub_diag (x : Q) : b64_sub x x = 0.
Proof.
  unfold b64_sub. apply b64_zero. destruct x as [n d]. simpl. lia.
Qed.

Example b64_values :
  b64 (1 # 10) = 3602879701896397 # 36028797018963968 /\
  b64_add 3 (b64 (57 # 10)) = 2448832297382707 # 281474976710656 /\
  np_norm2 (b64 (18 # 10)) (b64 (24 # 10)) = 3 /\
  b64_mul (b64 (95 # 100)) TARGET_ALTITUDE = 19 # 4.
Proof. vm_compute. repeat split. Qed.

(** ** Coordinate round trip *)

(** C4 (as the code has it).  With integer grid offsets, and as long as
    the indices and the indices plus offsets are below [2^53] in magnitude,
    converting an integer grid cell to local coordinates with
    [grid_to_local] and back with [local_to_grid] returns the cell. *)
Theorem round_trip_integer_offsets (no eo : Z) (c : Cell) :
  (Z.abs (c0 c) < 2 ^ 53)%Z -> (Z.abs (c0 c + no) < 2 ^ 53)%Z ->
  (Z.abs (c1 c) < 2 ^ 53)%Z -> (Z.abs (c1 c + eo) < 2 ^ 53)%Z ->
  local_to_grid (inject_Z no) (inject_Z eo)
    (grid_to_local (inject_Z no) (inject_Z eo) (cell_coord c)) = c.
Proof.
  destruct c as [[n e] a]. unfold c0, c1. cbn [fst snd]. intros Hn Hno He Heo.
  unfold local_to_grid, grid_to_local, cell_coord, v0, v1, v2. cbn [fst snd].
  rewrite (b64_add_int n no Hno), (b64_add_int e eo Heo).
  rewrite (b64_sub_int (n + no) no), (b64_sub_int (e + eo) eo)
    by (rewrite Z.add_simpl_r; assumption).
  rewrite !Z.add_simpl_r.
  rewrite (py_int_Qeq (- - inject_Z a) (inject_Z a)) by ring.
  now rewrite !py_int_inject_Z.
Qed.

Lemma round_trip_integer_offsets_witness :
  local_to_grid (inject_Z (-316)) (inject_Z (-445))
    (grid_to_local (inject_Z (-316)) (inject_Z (-445))
       (cell_coord (316, 445, 5)%Z))
  = (316, 445, 5)%Z.
Proof.
  apply (round_trip_integer_offsets (-316) (-445) (316, 445, 5)%Z);
    vm_compute; reflexivity.
Defined.

(** With the fractional offsets 5.7 and 0.1 the sums [3 + 5.7] and
    [4 + 0.1] round, the differences come out just below 3 and 4, and the
    integer cell (3, 4, 0) comes back as (2, 3, 0). *)
Lemma round_trip_fractional_offsets_fail :
  local_to_grid (b64 (57 # 10)) (b64 (1 # 10))
    (grid_to_local (b64 (57 # 10)) (b64 (1 # 10)) (cell_coord (3, 4, 0)%Z))
  = (2, 3, 0)%Z /\
  local_to_grid (b64 (57 # 10)) (b64 (1 # 10))
    (grid_to_local (b64 (57 # 10)) (b64 (1 # 10)) (cell_coord (3, 4, 0)%Z))
  <> (3, 4, 0)%Z.
Proof. vm_compute. split; [reflexivity|discriminate]. Qed.

(** ** Waypoint generation *)

Section WaypointFacts.
Variable atan2 : Q -> Q -> Q.
Variables no eo : Q.

Lemma path_to_waypoints_length (p : list Cell) :
  length (path_to_waypoints atan2 no eo p) = length p.
Proof. unfold path_to_waypoints. now rewrite length_map, length_seq. Qed.

Lemma path_to_waypoints_nth (p : list Cell) (i : nat) :
  (i < length p)%nat ->
  nth_error (path_to_waypoints atan2 no eo p) i = Some (waypoint_at atan2 no eo p i).
Proof.
  intro H. unfold path_to_waypoints.
  rewrite nth_error_map.
  rewrite (nth_error_nth' _ 0%nat) by now rewrite length_seq.
  simpl. now rewrite seq_nth.
Qed.
End WaypointFacts.



(* ------------------------------------------------------------------ *)
(** ** The position callback *)

Lemma waypoint_transition_cons (s : Drone) (w : Waypoint) (ws : list Waypoint) :
  waypoints s = w :: ws ->
  waypoint_transition s = (after_waypoint w ws s, [cmd_of_waypoint w], inr tt).
Proof.
  intro H. unfold waypoint_transition, waypoints_pop0, bind, modify, get.
  simpl. rewrite H. reflexivity.
Qed.

Lemma waypoint_transition_nil (s : Drone) :
  waypoints s = [] ->
  waypoint_transition s = (set_flight_state WAYPOINT s, [], inl IndexError).
Proof.
  intro H. unfold waypoint_transition, waypoints_pop0, bind, modify, get.
  simpl. rewrite H. reflexivity.
Qed.

(** After a callback's guards are decided, what remains is the call of one
    transition. *)
Ltac run_callee :=
  match goal with
  | |- match ?x with _ => _ end = _ =>
      destruct x as [[? ?] [?|[]]]; simpl; rewrite ?app_nil_r; reflexivity
  end.

Lemma local_position_callback_waypoint (s : Drone) :
  flight_state s = WAYPOINT ->
  local_position_callback s =
    if Qltb (np_norm2
               (b64_sub (tp0 (target_position s)) (v0 (local_position s)))
               (b64_sub (tp1 (target_position s)) (v1 (local_position s)))) 3
       && Qltb (Qabs (b64_sub (tp2 (target_position s))
                        (- v2 (local_position s)))) 2
    then
      if (0 <? length (waypoints s))%nat then waypoint_transition s
      else if Qltb (np_norm2 (v0 (local_velocity s)) (v1 (local_velocity s))) 1
           then landing_transition s else (s, [], inr tt)
    else (s, [], inr tt).
Proof.
  intro H. unfold local_position_callback, bind, get. rewrite H.
  cbn [States_eqb].
  destruct (Qltb (np_norm2 _ _) 3 && _); [|reflexivity].
  destruct (0 <? _)%nat; [run_callee|].
  destruct (Qltb (np_norm2 _ _) 1); [run_callee|reflexivity].
Qed.

Lemma local_position_callback_takeoff (s : Drone) :
  flight_state s = TAKEOFF ->
  local_position_callback s =
    if Qltb ((95 # 100) * tp2 (target_position s)) (-(1) * v2 (local_position s))
    then waypoint_transition s else (s, [], inr tt).
Proof.
  intro H. unfold local_position_callback, bind, get. rewrite H. simpl.
  destruct (Qltb _ _); try reflexivity; run_callee.
Qed.

Lemma dispatch_position (env : Env) (s : Drone) (n e d : Q) :
  dispatch env (LOCAL_POSITION n e d) s =
  local_position_callback (set_local_position (n, e, d) s).
Proof.
  unfold dispatch, bind, modify. run_callee.
Qed.

(** C1.  A position event [(n, e, d)] handled in phase Waypoint with
    horizontal error below 3.0 and vertical error below 2.0, both as the
    callback computes them (the norm of the difference between target and
    position, the magnitude of target altitude minus altitude): with a
    non-empty queue [w :: ws] the controller pops [w], makes it the target,
    commands that position and stays in Waypoint; with an empty queue and
    horizontal speed (the norm of the velocity) below 1.0 it commands land
    and enters Landing; with an empty queue and horizontal speed not below
    1.0 it changes nothing but the stored position and issues no
    command. *)
Theorem waypoint_position_reached (env : Env) (s : Drone) (n e d : Q) :
  flight_state s = WAYPOINT ->
  np_norm2 (b64_sub (tp0 (target_position s)) n)
           (b64_sub (tp1 (target_position s)) e) < 3 ->
  Qabs (b64_sub (tp2 (target_position s)) (- d)) < 2 ->
  let s0 := set_local_position (n, e, d) s in
  let speed := np_norm2 (v0 (local_velocity s)) (v1 (local_velocity s)) in
  (forall w ws, waypoints s = w :: ws ->
     dispatch env (LOCAL_POSITION n e d) s
     = (after_waypoint w ws s0, [cmd_of_waypoint w], inr tt)
     /\ flight_state (after_waypoint w ws s0) = WAYPOINT
     /\ waypoints (after_waypoint w ws s0) = ws) /\
  (waypoints s = [] -> speed < 1 ->
     dispatch env (LOCAL_POSITION n e d) s
     = (set_flight_state LANDING s0, [Land], inr tt)) /\
  (waypoints s = [] -> ~ speed < 1 ->
     dispatch env (LOCAL_POSITION n e d) s = (s0, [], inr tt)).
Proof.
  intros Hst Hh Hv s0 speed.
  assert (Hcb : local_position_callback s0 =
                if (0 <? length (waypoints s))%nat then waypoint_transition s0
                else if Qltb speed 1
                     then landing_transition s0 else (s0, [], inr tt)).
  { rewrite local_position_callback_waypoint by exact Hst.
    unfold s0, set_local_position, v0, v1, v2.
    cbn [target_position local_position local_velocity waypoints fst snd].
    apply Qltb_lt in Hh. apply Qltb_lt in Hv. rewrite Hh, Hv. reflexivity. }
  rewrite dispatch_position. fold s0. rewrite Hcb.
  split; [|split].
  - intros w ws Hw. rewrite Hw. simpl. split; [|split; reflexivity].
    apply waypoint_transition_cons. exact Hw.
  - intros Hw Hs. rewrite Hw. cbn [length Nat.ltb Nat.leb].
    apply Qltb_lt in Hs. rewrite Hs. reflexivity.
  - intros Hw Hs. rewrite Hw. cbn [length Nat.ltb Nat.leb].
    apply Qltb_nlt in Hs. rewrite Hs. reflexivity.
Qed.

(** At the boundary the rounding decides: 1.8 and 2.4 from the target the
    computed norm is exactly 3.0 and nothing is popped; at velocity
    (0.96, 0.28) the computed speed is exactly 1.0. *)
Example waypoint_guard_at_boundary :
  Qltb (np_norm2 (b64_sub 0 (b64 (18 # 10))) (b64_sub 0 (b64 (24 # 10)))) 3
  = false /\
  Qltb (np_norm2 (b64 (96 # 100)) (b64 (28 # 100))) 1 = false.
Proof. vm_compute. split; reflexivity. Qed.

Example sample_takeoff_state_phase :
  flight_state sample_takeoff_state = TAKEOFF /\
  tp2 (target_position sample_takeoff_state) = 5 /\
  length (waypoints sample_takeoff_state) = 2%nat.
Proof. vm_compute. repeat split. Qed.

Lemma waypoint_position_reached_witness :
  dispatch sample_env (LOCAL_POSITION 0 0 (-(5))) sample_waypoint_state
  = (after_waypoint (mkWaypoint 3 (-(3)) 5 (-(6))) []
       (set_local_position (0, 0, -(5)) sample_waypoint_state),
     [CmdPosition 3 (-(3)) 5 (-(6))], inr tt).
Proof.
  assert (H1 : flight_state sample_waypoint_state = WAYPOINT)
    by (vm_compute; reflexivity).
  assert (H2 : np_norm2 (b64_sub (tp0 (target_position sample_waypoint_state)) 0)
                        (b64_sub (tp1 (target_position sample_waypoint_state)) 0)
               < 3)
    by (vm_compute; reflexivity).
  assert (H3 : Qabs (b64_sub (tp2 (target_position sample_waypoint_state))
                       (- -(5))) < 2)
    by (vm_compute; reflexivity).
  destruct (waypoint_position_reached sample_env sample_waypoint_state
              0 0 (-(5)) H1 H2 H3) as [Hpop _].
  destruct (Hpop (mkWaypoint 3 (-(3)) 5 (-(6))) []) as [Heq _].
  - vm_compute; reflexivity.
  - exact Heq.
Defined.

(** C5 (as the code has it).  A position event [(n, e, d)] handled in phase
    Takeoff moves the controller to Waypoint exactly when the altitude [-d]
    is strictly greater than 0.95 times the target altitude; in that case,
    with a non-empty queue [w :: ws], it pops [w] and commands that
    position; otherwise nothing changes but the stored position and no
    command is issued. *)
Theorem takeoff_altitude_reached (env : Env) (s : Drone) (n e d : Q) :
  flight_state s = TAKEOFF ->
  let s0 := set_local_position (n, e, d) s in
  let r := dispatch env (LOCAL_POSITION n e d) s in
  (flight_state (state_of r) = WAYPOINT
   <-> (95 # 100) * tp2 (target_position s) < - d) /\
  ((95 # 100) * tp2 (target_position s) < - d ->
   forall w ws, waypoints s = w :: ws ->
     r = (after_waypoint w ws s0, [cmd_of_waypoint w], inr tt)) /\
  (~ (95 # 100) * tp2 (target_position s) < - d -> r = (s0, [], inr tt)).
Proof.
  intros Hst s0 r. unfold r. rewrite dispatch_position. fold s0.
  rewrite local_position_callback_takeoff by exact Hst.
  assert (Hg : (95 # 100) * tp2 (target_position s) < - d <->
               Qltb ((95 # 100) * tp2 (target_position s0))
                    (-(1) * v2 (local_position s0)) = true).
  { rewrite Qltb_lt. unfold s0, v2. simpl.
    assert (E : -(1) * d == - d) by ring. rewrite E. tauto. }
  destruct (Qltb _ _) eqn:G.
  - assert (Hlt : (95 # 100) * tp2 (target_position s) < - d) by now apply Hg.
    split; [|split].
    + split; [intros _; exact Hlt|intros _].
      destruct (waypoints s0) as [|w ws] eqn:W.
      * now rewrite waypoint_transition_nil.
      * now rewrite (waypoint_transition_cons _ _ _ W).
    + intros _ w ws W. now apply waypoint_transition_cons.
    + intro N. contradiction.
  - assert (Hn : ~ (95 # 100) * tp2 (target_position s) < - d).
    { intro L. apply Hg in L. congruence. }
    split; [|split].
    + split; [|intro L; contradiction].
      unfold state_of, s0. simpl. rewrite Hst. discriminate.
    + intro L. contradiction.
    + intros _. reflexivity.
Qed.

Lemma takeoff_altitude_reached_witness :
  dispatch sample_env (LOCAL_POSITION 0 0 (-(5))) sample_takeoff_state
  = (after_waypoint (mkWaypoint 0 0 5 0) [mkWaypoint 3 (-(3)) 5 (-(6))]
       (set_local_position (0, 0, -(5)) sample_takeoff_state),
     [CmdPosition 0 0 5 0], inr tt).
Proof.
  assert (H1 : flight_state sample_takeoff_state = TAKEOFF)
    by (vm_compute; reflexivity).
  destruct (takeoff_altitude_reached sample_env sample_takeoff_state
              0 0 (-(5)) H1) as [_ [Hgo _]].
  apply Hgo; vm_compute; reflexivity.
Defined.

(** With the target altitude 5 and the vehicle exactly at altitude 4.75
    (= 0.95 x 5), "altitude >= 0.95 x target" holds, yet the controller stays
    in Takeoff, keeps its queue and issues no command. *)
Lemma takeoff_at_threshold_no_transition :
  flight_state sample_takeoff_state = TAKEOFF /\
  (95 # 100) * tp2 (target_position sample_takeoff_state) <= - -(475 # 100) /\
  waypoints sample_takeoff_state <> [] /\
  dispatch sample_env (LOCAL_POSITION 0 0 (-(475 # 100))) sample_takeoff_state
  = (set_local_position (0, 0, -(475 # 100)) sample_takeoff_state, [], inr tt) /\
  flight_state
    (state_of (dispatch sample_env (LOCAL_POSITION 0 0 (-(475 # 100)))
                 sample_takeoff_state)) = TAKEOFF.
Proof.
  split; [vm_compute; reflexivity|].
  split; [vm_compute; discriminate|].
  split; [vm_compute; discriminate|].
  split; vm_compute; reflexivity.
Qed.

(* ------------------------------------------------------------------ *)
(** ** The status callback *)

Lemma dispatch_status (env : Env) (s : Drone) (a g : bool) :
  dispatch env (STATE a g) s = state_callback env (set_status a g s).
Proof. unfold dispatch, bind, modify. run_callee. Qed.

Lemma dispatch_velocity (env : Env) (s : Drone) (vn ve vd : Q) :
  dispatch env (LOCAL_VELOCITY vn ve vd) s =
  velocity_callback (set_local_velocity (vn, ve, vd) s).
Proof. unfold dispatch, bind, modify. run_callee. Qed.

Lemma state_callback_manual (env : Env) (s : Drone) :
  in_mission s = true -> flight_state s = MANUAL ->
  state_callback env s = (set_flight_state ARMING s, [Arm; TakeControl], inr tt).
Proof.
  intros Hm Hst. unfold state_callback, bind, get. simpl. rewrite Hm, Hst.
  reflexivity.
Qed.

Lemma state_callback_arming (env : Env) (s : Drone) :
  in_mission s = true -> flight_state s = ARMING -> armed s = true ->
  state_callback env s = plan_path env s.
Proof.
  intros Hm Hst Ha. unfold state_callback, bind, get. simpl.
  rewrite Hm, Hst, Ha. simpl. run_callee.
Qed.

Lemma state_callback_planning (env : Env) (s : Drone) :
  in_mission s = true -> flight_state s = PLANNING ->
  state_callback env s
  = (set_flight_state TAKEOFF s, [Takeoff (tp2 (target_position s))], inr tt).
Proof.
  intros Hm Hst. unfold state_callback, bind, get. simpl. rewrite Hm, Hst.
  reflexivity.
Qed.

(** In phase Disarming the guard [~self.armed & ~self.guided] is a non-zero
    int whatever the two flags are, so [manual_transition] always runs. *)
Lemma state_callback_disarming (env : Env) (s : Drone) :
  in_mission s = true -> flight_state s = DISARMING ->
  state_callback env s
  = (set_in_mission false (set_flight_state MANUAL s), [Stop], inr tt).
Proof.
  intros Hm Hst. unfold state_callback, bind, get. simpl. rewrite Hm, Hst.
  simpl. rewrite py_invert_guard. reflexivity.
Qed.

Lemma dispatch_disarming (env : Env) (s : Drone) (a g : bool) :
  in_mission s = true -> flight_state s = DISARMING ->
  dispatch env (STATE a g) s
  = (set_in_mission false (set_flight_state MANUAL (set_status a g s)),
     [Stop], inr tt).
Proof.
  intros Hm Hst. rewrite dispatch_status.
  now rewrite state_callback_disarming.
Qed.

Lemma state_callback_idle (env : Env) (s : Drone) :
  in_mission s = false -> state_callback env s = (s, [], inr tt).
Proof.
  intros Hm. unfold state_callback, bind, get. simpl. rewrite Hm. reflexivity.
Qed.

Example sample_mission_trace :
  map step_phase (trace sample_env init sample_mission)
  = [MANUAL; MANUAL; ARMING; PLANNING; TAKEOFF; WAYPOINT; WAYPOINT; LANDING;
     LANDING; DISARMING]
  /\ in_mission sample_disarming_state = true.
Proof. vm_compute. split; reflexivity. Qed.

(** C2 (the code at a failing input).  In phase Disarming, a status event
    reporting the vehicle still armed and guided makes the controller run
    [manual_transition]: the phase becomes Manual, [stop()] is issued and
    the mission-active flag is cleared. *)
Theorem disarming_while_armed_goes_manual :
  flight_state sample_disarming_state = DISARMING /\
  in_mission sample_disarming_state = true /\
  dispatch sample_env (STATE true true) sample_disarming_state
  = (set_in_mission false
       (set_flight_state MANUAL (set_status true true sample_disarming_state)),
     [Stop], inr tt) /\
  flight_state
    (state_of (dispatch sample_env (STATE true true) sample_disarming_state))
  = MANUAL.
Proof.
  assert (Hst : flight_state sample_disarming_state = DISARMING)
    by (vm_compute; reflexivity).
  assert (Hm : in_mission sample_disarming_state = true)
    by (vm_compute; reflexivity).
  split; [exact Hst|]. split; [exact Hm|].
  rewrite (dispatch_disarming sample_env _ true true Hm Hst).
  split; reflexivity.
Qed.

(* ------------------------------------------------------------------ *)
(** ** Start and end of the mission *)

Lemma local_position_callback_manual (s : Drone) :
  flight_state s = MANUAL -> local_position_callback s = (s, [], inr tt).
Proof.
  intro H. unfold local_position_callback, bind, get. simpl. rewrite H.
  reflexivity.
Qed.

Lemma velocity_callback_manual (s : Drone) :
  flight_state s = MANUAL -> velocity_callback s = (s, [], inr tt).
Proof.
  intro H. unfold velocity_callback, bind, get. rewrite H. reflexivity.
Qed.

(** Telemetry other than status messages, received in phase Manual, only
    refreshes the stored telemetry. *)
Lemma dispatch_manual_non_status (env : Env) (s : Drone) (ev : Event) :
  flight_state s = MANUAL -> is_status ev = false ->
  step_of (dispatch env ev s) = quiet_step /\
  flight_state (state_of (dispatch env ev s)) = MANUAL /\
  in_mission (state_of (dispatch env ev s)) = in_mission s.
Proof.
  intros Hst Hev. destruct ev as [n e d|vn ve vd|a g|lon lat alt|lon lat alt];
    try discriminate.
  - rewrite dispatch_position, local_position_callback_manual by exact Hst.
    unfold step_of, quiet_step. simpl. rewrite Hst. auto.
  - rewrite dispatch_velocity, velocity_callback_manual by exact Hst.
    unfold step_of, quiet_step. simpl. rewrite Hst. auto.
  - unfold step_of, quiet_step. simpl. rewrite Hst. auto.
  - unfold step_of, quiet_step. simpl. rewrite Hst. auto.
Qed.

Lemma run_app (env : Env) (evs1 evs2 : list Event) (s : Drone) :
  run env s (evs1 ++ evs2) =
  (fst (run env (fst (run env s evs1)) evs2),
   snd (run env s evs1) ++ snd (run env (fst (run env s evs1)) evs2)).
Proof.
  revert s. induction evs1 as [|ev evs1 IH]; intro s; simpl.
  - now destruct (run env s evs2).
  - rewrite IH. destruct (run env (state_of (dispatch env ev s)) evs1).
    reflexivity.
Qed.

Lemma run_single (env : Env) (ev : Event) (s : Drone) :
  run env s [ev] = (state_of (dispatch env ev s), [step_of (dispatch env ev s)]).
Proof. reflexivity. Qed.

Lemma run_manual_non_status (env : Env) (evs : list Event) (s : Drone) :
  flight_state s = MANUAL -> existsb is_status evs = false ->
  snd (run env s evs) = map (fun _ => quiet_step) evs /\
  flight_state (fst (run env s evs)) = MANUAL /\
  in_mission (fst (run env s evs)) = in_mission s.
Proof.
  intros Hst. revert s Hst. induction evs as [|ev evs IH]; intros s Hst Hn.
  - simpl. auto.
  - simpl in Hn. apply orb_false_iff in Hn. destruct Hn as [Hev Hn].
    destruct (dispatch_manual_non_status env s ev Hst Hev) as [H1 [H2 H3]].
    specialize (IH _ H2 Hn). destruct IH as [I1 [I2 I3]].
    simpl. destruct (run env (state_of (dispatch env ev s)) evs) as [s' tr].
    simpl in *. rewrite H1, I1. split; [reflexivity|]. split; congruence.
Qed.

(** C10.  The object is constructed in phase Manual with the mission-active
    flag set; whatever telemetry other than status messages comes first
    (it causes nothing), the first status event makes the controller issue
    [arm()] and then [take_control()] and enter phase Arming. *)
Theorem first_status_event_arms (env : Env) (evs : list Event) (a g : bool) :
  existsb is_status evs = false ->
  in_mission init = true /\ flight_state init = MANUAL /\
  trace env init (evs ++ [STATE a g])
  = map (fun _ => quiet_step) evs ++ [mkStep ARMING [Arm; TakeControl] None] /\
  flight_state (final env init (evs ++ [STATE a g])) = ARMING.
Proof.
  intro Hn. split; [reflexivity|]. split; [reflexivity|].
  destruct (run_manual_non_status env evs init eq_refl Hn) as [T [P I]].
  unfold trace, final. rewrite run_app. cbn [fst snd]. rewrite T.
  set (s := fst (run env init evs)) in *.
  assert (D : dispatch env (STATE a g) s
              = (set_flight_state ARMING (set_status a g s),
                 [Arm; TakeControl], inr tt)).
  { rewrite dispatch_status. apply state_callback_manual.
    - simpl. rewrite I. reflexivity.
    - simpl. exact P. }
  rewrite run_single, D. split; reflexivity.
Qed.

Lemma first_status_event_arms_witness :
  trace sample_env init
    ([LOCAL_POSITION 0 0 0; LOCAL_VELOCITY 0 0 0] ++ [STATE false false])
  = [quiet_step; quiet_step; mkStep ARMING [Arm; TakeControl] None].
Proof.
  destruct (first_status_event_arms sample_env
              [LOCAL_POSITION 0 0 0; LOCAL_VELOCITY 0 0 0] false false)
    as [_ [_ [T _]]].
  - reflexivity.
  - exact T.
Defined.

(** Once the mission flag is cleared in phase Manual, nothing ever happens
    again. *)
Lemma run_after_mission (env : Env) (evs : list Event) (s : Drone) :
  flight_state s = MANUAL -> in_mission s = false ->
  snd (run env s evs) = map (fun _ => quiet_step) evs /\
  flight_state (fst (run env s evs)) = MANUAL /\
  in_mission (fst (run env s evs)) = false.
Proof.
  revert s. induction evs as [|ev evs IH]; intros s Hst Hm.
  - simpl. auto.
  - assert (H : step_of (dispatch env ev s) = quiet_step /\
                flight_state (state_of (dispatch env ev s)) = MANUAL /\
                in_mission (state_of (dispatch env ev s)) = false).
    { destruct (is_status ev) eqn:E.
      - destruct ev; try discriminate.
        rewrite dispatch_status, state_callback_idle by exact Hm.
        unfold step_of, quiet_step. simpl. rewrite Hst. auto.
      - destruct (dispatch_manual_non_status env s ev Hst E) as [H1 [H2 H3]].
        repeat split; congruence. }
    destruct H as [H1 [H2 H3]].
    destruct (IH _ H2 H3) as [I1 [I2 I3]].
    simpl. destruct (run env (state_of (dispatch env ev s)) evs) as [s' tr].
    simpl in *. rewrite H1, I1. auto.
Qed.

(** C9.  After [manual_transition] has run (the Disarming to Manual
    transition, which clears the mission-active flag), every later
    telemetry event of any kind, in any number and order, leaves the phase
    at Manual, issues no vehicle command and raises nothing. *)
Theorem mission_is_one_shot (env : Env) (s : Drone) (evs : list Event) :
  let s' := state_of (manual_transition s) in
  flight_state s' = MANUAL /\ in_mission s' = false /\
  trace env s' evs = map (fun _ => quiet_step) evs /\
  flight_state (final env s' evs) = MANUAL /\
  in_mission (final env s' evs) = false.
Proof.
  intro s'. split; [reflexivity|]. split; [reflexivity|].
  apply run_after_mission; reflexivity.
Qed.

Example one_shot_after_sample_mission :
  map step_phase
    (trace sample_env init
       (sample_mission ++ [STATE true true; STATE false false;
                           LOCAL_POSITION 0 0 (-(5)); LOCAL_VELOCITY 0 0 0;
                           STATE true false]))
  = [MANUAL; MANUAL; ARMING; PLANNING; TAKEOFF; WAYPOINT; WAYPOINT; LANDING;
     LANDING; DISARMING; MANUAL; MANUAL; MANUAL; MANUAL; MANUAL].
Proof. vm_compute. reflexivity. Qed.

(* ------------------------------------------------------------------ *)
(** ** Planning failures *)

Lemma pick_goal_frame (env : Env) (ev : Q * Q) (s : Drone) :
  mission_frame s (state_of (pick_goal env ev s)) /\
  cmds_of (pick_goal env ev s) = [].
Proof.
  unfold pick_goal, bind, get, lift, modify, raise, ret, mission_frame.
  destruct (map_grid s) as [g|]; [|simpl; auto].
  destruct (grid_at g _ _) as [x|alt]; [simpl; auto|].
  destruct (north_offset s), (east_offset s); simpl; auto.
Qed.

Lemma pick_goals_frame (env : Env) (evs : list (Q * Q)) (s : Drone) :
  mission_frame s (state_of (pick_goals env evs s)) /\
  cmds_of (pick_goals env evs s) = [].
Proof.
  revert s. induction evs as [|ev evs IH]; intro s.
  - simpl. unfold mission_frame. auto.
  - simpl. unfold bind.
    destruct (pick_goal_frame env ev s) as [F C].
    destruct (pick_goal env ev s) as [[s1 c1] [x|[]]]; simpl in *.
    + unfold cmds_of in *. simpl in *. subst. auto.
    + destruct (IH s1) as [F' C'].
      destruct (pick_goals env evs s1) as [[s2 c2] r].
      unfold mission_frame, state_of, cmds_of in *. simpl in *. subst.
      split; [intuition congruence|reflexivity].
Qed.

(** Closes the case in which [plan_path] stopped at a raised exception. *)
Ltac stopped :=
  unfold state_of, cmds_of, result_of; simpl; intros; repeat split;
  solve [eauto | congruence].

(** Walks through [plan_path] call by call; every case in which a call
    raised is closed by [stopped], the case of a completed plan is left. *)
Ltac plan_path_cases env :=
  unfold plan_path, bind, modify, get, emit, lift, raise, ret;
  destruct (read_header env) as [?|[? ?]]; [stopped|];
  destruct (load_obstacles env) as [?|?]; [stopped|];
  match goal with
  | |- context [create_grid env ?d ?m] =>
      destruct (create_grid env d m) as [?|[[? ?] ?]]
  end; [stopped|];
  cbn [fst snd];
  match goal with
  | |- context [grid_at ?g ?a ?b] => destruct (grid_at g a b) as [?|?]
  end; [stopped|];
  match goal with
  | |- context [pick_goals env ?l ?s] =>
      let F := fresh "F" in
      let C := fresh "C" in
      destruct (pick_goals_frame env l s) as [F C];
      destruct (pick_goals env l s) as [[? ?] [?|[]]];
      unfold mission_frame, state_of, cmds_of in F, C; simpl in F, C;
      subst; destruct F as (? & ? & ? & ?)
  end; [stopped|];
  match goal with
  | |- context [grid_at ?g ?a ?b] => destruct (grid_at g a b) as [?|?]
  end; [stopped|];
  match goal with
  | |- context [a_star env ?g ?a ?b ?t] =>
      destruct (a_star env g a b t) as [?|?]
  end; [stopped|];
  match goal with
  | |- context [path_prune env ?q] => destruct (path_prune env q) as [?|?]
  end; [stopped|];
  match goal with
  | |- context [path_simplify env ?g ?q] =>
      destruct (path_simplify env g q) as [?|?]
  end; [stopped|].

(** However [plan_path] fails, it leaves the phase at Planning, the
    mission flag and the queue as they were, and has sent at most the home
    position. *)
Lemma plan_path_raises (env : Env) (s : Drone) (e : Exn) :
  result_of (plan_path env s) = inl e ->
  flight_state (state_of (plan_path env s)) = PLANNING /\
  in_mission (state_of (plan_path env s)) = in_mission s /\
  waypoints (state_of (plan_path env s)) = waypoints s /\
  (cmds_of (plan_path env s) = [] \/
   exists lon lat, cmds_of (plan_path env s) = [SetHomePosition lon lat 0]).
Proof.
  plan_path_cases env.
  unfold result_of; simpl. discriminate.
Qed.

(** Failing or not, [plan_path] ends in phase Planning with the mission
    flag as it was. *)
Lemma plan_path_phase (env : Env) (s : Drone) :
  flight_state (state_of (plan_path env s)) = PLANNING /\
  in_mission (state_of (plan_path env s)) = in_mission s.
Proof.
  plan_path_cases env. stopped.
Qed.

Lemma dispatch_arming_armed (env : Env) (s : Drone) (g : bool) :
  flight_state s = ARMING -> in_mission s = true ->
  dispatch env (STATE true g) s = plan_path env (set_status true g s).
Proof.
  intros Hst Hm. rewrite dispatch_status. now apply state_callback_arming.
Qed.

(** C3 (as the code has it).  If the planning pipeline fails while the
    armed-confirmed status event is handled, no waypoints are dispatched
    (the queue is untouched and at most the home position was sent to the
    vehicle), but the failure is not handled: the exception leaves the
    callback, the phase stays Planning and the mission-active flag stays
    set. *)
Theorem planning_failure_not_handled (env : Env) (s : Drone) (g : bool) (e : Exn) :
  flight_state s = ARMING -> in_mission s = true ->
  result_of (dispatch env (STATE true g) s) = inl e ->
  flight_state (state_of (dispatch env (STATE true g) s)) = PLANNING /\
  in_mission (state_of (dispatch env (STATE true g) s)) = true /\
  waypoints (state_of (dispatch env (STATE true g) s)) = waypoints s /\
  (cmds_of (dispatch env (STATE true g) s) = [] \/
   exists lon lat,
     cmds_of (dispatch env (STATE true g) s) = [SetHomePosition lon lat 0]).
Proof.
  intros Hst Hm. rewrite (dispatch_arming_armed env s g Hst Hm). intro Hr.
  destruct (plan_path_raises env _ e Hr) as [H1 [H2 [H3 H4]]].
  split; [exact H1|]. split; [|split; [exact H3|exact H4]].
  rewrite H2. exact Hm.
Qed.

Lemma planning_failure_not_handled_witness :
  flight_state
    (state_of (dispatch no_path_env (STATE true true) sample_arming_state))
  = PLANNING /\
  in_mission
    (state_of (dispatch no_path_env (STATE true true) sample_arming_state))
  = true.
Proof.
  destruct (planning_failure_not_handled no_path_env sample_arming_state
              true PathNotFound) as [H1 [H2 _]].
  - vm_compute; reflexivity.
  - vm_compute; reflexivity.
  - vm_compute; reflexivity.
  - exact (conj H1 H2).
Defined.

(** With a planner that finds no path, the armed-confirmed event ends with
    [PathNotFound] escaping the callback; the controller is then in phase
    Planning, not Manual, with the mission-active flag still set, and the
    next status event commands the takeoff.  With obstacle data that cannot
    be read the same happens with [ValueError]. *)
Lemma planning_failure_stays_in_planning :
  flight_state sample_arming_state = ARMING /\
  in_mission sample_arming_state = true /\
  step_of (dispatch no_path_env (STATE true true) sample_arming_state)
  = mkStep PLANNING [SetHomePosition (snd sample_home) (fst sample_home) 0]
      (Some PathNotFound) /\
  in_mission
    (state_of (dispatch no_path_env (STATE true true) sample_arming_state))
  = true /\
  flight_state
    (state_of (dispatch no_path_env (STATE true true) sample_arming_state))
  <> MANUAL /\
  map step_phase
    (trace no_path_env sample_arming_state [STATE true true; STATE true true])
  = [PLANNING; TAKEOFF] /\
  step_of (dispatch bad_data_env (STATE true true) sample_arming_state)
  = mkStep PLANNING [SetHomePosition (snd sample_home) (fst sample_home) 0]
      (Some ValueError) /\
  in_mission
    (state_of (dispatch bad_data_env (STATE true true) sample_arming_state))
  = true.
Proof.
  vm_compute. repeat split; discriminate.
Qed.

(* ------------------------------------------------------------------ *)
(** ** Popping from an empty queue *)

(** [waypoint_transition] needs a non-empty queue: called from phase
    Takeoff with an empty queue it sets the phase and then raises. *)
Lemma takeoff_empty_queue_raises (env : Env) (s : Drone) (n e d : Q) :
  flight_state s = TAKEOFF -> waypoints s = [] ->
  (95 # 100) * tp2 (target_position s) < - d ->
  dispatch env (LOCAL_POSITION n e d) s
  = (set_flight_state WAYPOINT (set_local_position (n, e, d) s), [],
     inl IndexError).
Proof.
  intros Hst Hw Hlt. rewrite dispatch_position.
  rewrite local_position_callback_takeoff by exact Hst.
  assert (G : Qltb ((95 # 100) * tp2 (target_position (set_local_position (n, e, d) s)))
                   (-(1) * v2 (local_position (set_local_position (n, e, d) s)))
              = true).
  { apply Qltb_lt. unfold v2. simpl.
    assert (E : -(1) * d == - d) by ring. rewrite E. exact Hlt. }
  rewrite G. now apply waypoint_transition_nil.
Qed.

(** C8.  There is a telemetry sequence from the constructed object in
    which planning produces (and sends) an empty waypoint list and the
    controller reaches phase Takeoff with an empty queue; the position
    event that reports the altitude reached then runs
    [waypoint_transition], whose [pop(0)] raises [IndexError] after the
    phase was set to Waypoint, and no position is commanded. *)
Theorem pop_from_empty_queue_reachable :
  exists (env : Env) (evs : list Event) (n e d : Q),
    In (SendWaypoints []) (concat (map step_cmds (trace env init evs))) /\
    flight_state (final env init evs) = TAKEOFF /\
    waypoints (final env init evs) = [] /\
    (95 # 100) * tp2 (target_position (final env init evs)) < - d /\
    waypoint_transition (set_local_position (n, e, d) (final env init evs))
    = (set_flight_state WAYPOINT
         (set_local_position (n, e, d) (final env init evs)), [],
       inl IndexError) /\
    step_of (dispatch env (LOCAL_POSITION n e d) (final env init evs))
    = mkStep WAYPOINT [] (Some IndexError).
Proof.
  exists empty_path_env, empty_plan_prefix, 0, 0, (-(5)).
  assert (Hst : flight_state (final empty_path_env init empty_plan_prefix) = TAKEOFF)
    by (vm_compute; reflexivity).
  assert (Hw : waypoints (final empty_path_env init empty_plan_prefix) = [])
    by (vm_compute; reflexivity).
  assert (Hlt : (95 # 100)
                * tp2 (target_position (final empty_path_env init empty_plan_prefix))
                < - -(5))
    by (vm_compute; reflexivity).
  split; [vm_compute; tauto|].
  split; [exact Hst|]. split; [exact Hw|]. split; [exact Hlt|]. split.
  - apply waypoint_transition_nil. exact Hw.
  - rewrite (takeoff_empty_queue_raises empty_path_env _ 0 0 (-(5)) Hst Hw Hlt).
    reflexivity.
Qed.

(* ------------------------------------------------------------------ *)
(** ** The callbacks, phase by phase *)

Lemma local_position_callback_other (s : Drone) :
  flight_state s <> TAKEOFF -> flight_state s <> WAYPOINT ->
  local_position_callback s = (s, [], inr tt).
Proof.
  intros H1 H2. unfold local_position_callback, bind, get. simpl.
  destruct (flight_state s); try reflexivity; congruence.
Qed.

Lemma velocity_callback_other (s : Drone) :
  flight_state s <> LANDING -> velocity_callback s = (s, [], inr tt).
Proof.
  intros H. unfold velocity_callback, bind, get.
  destruct (flight_state s); try reflexivity; congruence.
Qed.

Lemma velocity_callback_landing (s : Drone) :
  flight_state s = LANDING ->
  velocity_callback s =
    if Qltb (b64_sub (v2 (global_position s)) (v2 (global_home s)))
            (b64 (1 # 10))
       && Qltb (Qabs (v2 (local_position s))) (b64 (1 # 100))
    then (set_flight_state DISARMING s, [Disarm; ReleaseControl], inr tt)
    else (s, [], inr tt).
Proof.
  intro H. unfold velocity_callback, bind, get. rewrite H. cbn [States_eqb].
  destruct (Qltb (b64_sub _ _) _); [|reflexivity].
  destruct (Qltb (Qabs _) _); reflexivity.
Qed.

Lemma state_callback_flying (env : Env) (s : Drone) :
  flight_state s = TAKEOFF \/ flight_state s = WAYPOINT \/ flight_state s = LANDING ->
  state_callback env s = (s, [], inr tt).
Proof.
  intro H. unfold state_callback, bind, get. simpl.
  destruct (in_mission s); [|reflexivity].
  destruct H as [H|[H|H]]; rewrite H; reflexivity.
Qed.

Lemma state_callback_not_armed (env : Env) (s : Drone) :
  flight_state s = ARMING -> armed s = false ->
  state_callback env s = (s, [], inr tt).
Proof.
  intros H A. unfold state_callback, bind, get. simpl.
  destruct (in_mission s); [|reflexivity]. rewrite H, A. reflexivity.
Qed.

(** X1.  A velocity event handled in phase Landing makes the controller
    disarm exactly when the difference between the global altitude and the
    home altitude, as the callback computes it, is less than 0.1 and the
    local down coordinate is less than 0.01 in magnitude: then it issues
    [disarm()] and [release_control()] and enters Disarming; otherwise only
    the stored velocity changes.  The velocity reported by the event plays
    no part in the decision. *)
Theorem landing_confirmed (env : Env) (s : Drone) (vn ve vd : Q) :
  flight_state s = LANDING ->
  let s0 := set_local_velocity (vn, ve, vd) s in
  let on_ground :=
    b64_sub (v2 (global_position s)) (v2 (global_home s)) < b64 (1 # 10) /\
    Qabs (v2 (local_position s)) < b64 (1 # 100) in
  (on_ground ->
   dispatch env (LOCAL_VELOCITY vn ve vd) s
   = (set_flight_state DISARMING s0, [Disarm; ReleaseControl], inr tt)) /\
  (~ on_ground -> dispatch env (LOCAL_VELOCITY vn ve vd) s = (s0, [], inr tt)).
Proof.
  intros Hst s0 on_ground. rewrite dispatch_velocity. fold s0.
  rewrite velocity_callback_landing by exact Hst.
  change (global_position s0) with (global_position s).
  change (global_home s0) with (global_home s).
  change (local_position s0) with (local_position s).
  unfold on_ground.
  set (lim1 := b64 (1 # 10)). set (lim2 := b64 (1 # 100)).
  pose proof (Qltb_lt (b64_sub (v2 (global_position s)) (v2 (global_home s)))
                lim1) as G.
  pose proof (Qltb_lt (Qabs (v2 (local_position s))) lim2) as L.
  destruct (Qltb (b64_sub (v2 (global_position s)) (v2 (global_home s))) lim1);
    destruct (Qltb (Qabs (v2 (local_position s))) lim2); cbn [andb];
    split; intro H; try reflexivity; exfalso;
    destruct G as [G1 G2]; destruct L as [L1 L2];
    try (destruct H as [Ha Hb]; specialize (G2 Ha); specialize (L2 Hb);
         discriminate);
    apply H; split; auto.
Qed.

(** The subtraction rounds before the comparison: 0.09999999999999999
    above a home altitude of -8e-18 is less than 0.1 above it, but the
    computed difference is 0.1 and the vehicle is not taken to be on the
    ground. *)
Example landing_guard_rounds :
  Qltb (b64_sub (b64 (9999999999999999 # 100000000000000000))
          (b64 (-(8) # 1000000000000000000)))
       (b64 (1 # 10)) = false.
Proof. vm_compute. reflexivity. Qed.

Lemma landing_confirmed_witness :
  dispatch sample_env (LOCAL_VELOCITY 0 0 0)
    (final sample_env init (firstn 9 sample_mission))
  = (set_flight_state DISARMING
       (set_local_velocity (0, 0, 0)
          (final sample_env init (firstn 9 sample_mission))),
     [Disarm; ReleaseControl], inr tt).
Proof.
  apply (landing_confirmed sample_env
           (final sample_env init (firstn 9 sample_mission)) 0 0 0).
  - vm_compute; reflexivity.
  - split; vm_compute; reflexivity.
Defined.

(** X2.  Each callback acts only in its own phases: a position event
    outside Takeoff and Waypoint, a velocity event outside Landing and a
    status event in Takeoff, Waypoint or Landing store their payload and do
    nothing else. *)
Theorem callbacks_ignore_other_phases (env : Env) (s : Drone) :
  (flight_state s <> TAKEOFF -> flight_state s <> WAYPOINT ->
   forall n e d,
     dispatch env (LOCAL_POSITION n e d) s
     = (set_local_position (n, e, d) s, [], inr tt)) /\
  (flight_state s <> LANDING ->
   forall vn ve vd,
     dispatch env (LOCAL_VELOCITY vn ve vd) s
     = (set_local_velocity (vn, ve, vd) s, [], inr tt)) /\
  (flight_state s = TAKEOFF \/ flight_state s = WAYPOINT \/ flight_state s = LANDING ->
   forall a g,
     dispatch env (STATE a g) s = (set_status a g s, [], inr tt)).
Proof.
  split; [|split].
  - intros H1 H2 n e d. rewrite dispatch_position.
    now apply local_position_callback_other.
  - intros H vn ve vd. rewrite dispatch_velocity.
    now apply velocity_callback_other.
  - intros H a g. rewrite dispatch_status. now apply state_callback_flying.
Qed.

Lemma callbacks_ignore_other_phases_witness :
  dispatch sample_env (STATE false false) sample_takeoff_state
  = (set_status false false sample_takeoff_state, [], inr tt).
Proof.
  destruct (callbacks_ignore_other_phases sample_env sample_takeoff_state)
    as [_ [_ H]].
  apply H. left. vm_compute; reflexivity.
Defined.

(** X3.  A position event handled in phase Waypoint for which the
    horizontal error the callback computes (the norm of target minus
    position) is not below 3.0, or the vertical error it computes is not
    below 2.0, changes nothing but the stored position: no waypoint is
    popped and no command is issued, whatever the queue and the speed. *)
Theorem waypoint_not_reached (env : Env) (s : Drone) (n e d : Q) :
  flight_state s = WAYPOINT ->
  ~ np_norm2 (b64_sub (tp0 (target_position s)) n)
             (b64_sub (tp1 (target_position s)) e) < 3
  \/ ~ Qabs (b64_sub (tp2 (target_position s)) (- d)) < 2 ->
  dispatch env (LOCAL_POSITION n e d) s
  = (set_local_position (n, e, d) s, [], inr tt).
Proof.
  intros Hst Hfar. rewrite dispatch_position.
  rewrite local_position_callback_waypoint by exact Hst.
  unfold set_local_position, v0, v1, v2.
  cbn [target_position local_position local_velocity waypoints fst snd].
  destruct Hfar as [H|H]; apply Qltb_nlt in H; rewrite H;
    rewrite ?andb_false_r; reflexivity.
Qed.

Lemma waypoint_not_reached_witness :
  dispatch sample_env (LOCAL_POSITION 3 (-(2)) (-(5))) sample_waypoint_state
  = (set_local_position (3, -(2), -(5)) sample_waypoint_state, [], inr tt).
Proof.
  apply (waypoint_not_reached sample_env sample_waypoint_state 3 (-(2)) (-(5))).
  - vm_compute; reflexivity.
  - left. vm_compute. discriminate.
Defined.

(** Here too the rounding decides: with target (3, 0) and the position
    below, the exact distance is not below 3, but the computed norm is
    2.9999999999999996 and the guard passes. *)
Example waypoint_guard_rounds :
  Qltb (np_norm2
          (b64_sub 3 (b64 (10000000000000832 # 100000000000000000)))
          (b64_sub 0 (b64 (76811457478689238 # 100000000000000000)))) 3
  = true.
Proof. vm_compute. reflexivity. Qed.

(** X4.  In phase Arming the controller waits for the armed flag alone: a
    status event reporting "not armed" does nothing, and one reporting
    "armed" runs the planning whether or not the vehicle is guided. *)
Theorem arming_waits_for_armed (env : Env) (s : Drone) (g : bool) :
  flight_state s = ARMING -> in_mission s = true ->
  dispatch env (STATE false g) s = (set_status false g s, [], inr tt) /\
  dispatch env (STATE true g) s = plan_path env (set_status true g s) /\
  flight_state (state_of (dispatch env (STATE true g) s)) = PLANNING.
Proof.
  intros Hst Hm. split; [|split].
  - rewrite dispatch_status. now apply state_callback_not_armed.
  - now apply dispatch_arming_armed.
  - rewrite (dispatch_arming_armed env s g Hst Hm). apply plan_path_phase.
Qed.

Lemma arming_waits_for_armed_witness :
  dispatch sample_env (STATE false true) sample_arming_state
  = (set_status false true sample_arming_state, [], inr tt).
Proof.
  destruct (arming_waits_for_armed sample_env sample_arming_state true)
    as [H _].
  - vm_compute; reflexivity.
  - vm_compute; reflexivity.
  - exact H.
Defined.

(* ------------------------------------------------------------------ *)
(** ** What planning leaves behind *)

Lemma set_interactive_goal_same (s : Drone) :
  set_interactive_goal (interactive_goal s) s = s.
Proof. destruct s; reflexivity. Qed.

(** [pick_goal] can only replace the interactive goal. *)
Lemma pick_goal_result (env : Env) (ev : Q * Q) (s : Drone) :
  exists goal r, pick_goal env ev s = (set_interactive_goal goal s, [], r).
Proof.
  unfold pick_goal, bind, get, lift, modify, raise, ret.
  destruct (map_grid s) as [g|];
    [|exists (interactive_goal s); eexists;
      now rewrite set_interactive_goal_same].
  destruct (grid_at g _ _) as [x|alt];
    [exists (interactive_goal s); eexists;
     now rewrite set_interactive_goal_same|].
  destruct (north_offset s), (east_offset s); simpl;
    try (exists (interactive_goal s); eexists;
         now rewrite set_interactive_goal_same).
  eexists. eexists. reflexivity.
Qed.

Lemma pick_goals_result (env : Env) (evs : list (Q * Q)) (s : Drone) :
  exists goal r, pick_goals env evs s = (set_interactive_goal goal s, [], r).
Proof.
  revert s. induction evs as [|ev evs IH]; intro s.
  - exists (interactive_goal s). eexists. simpl. unfold pass, ret.
    now rewrite set_interactive_goal_same.
  - simpl. unfold bind.
    destruct (pick_goal_result env ev s) as (g1 & r1 & E1). rewrite E1.
    destruct r1 as [x|[]]; [now exists g1; eexists|].
    destruct (IH (set_interactive_goal g1 s)) as (g2 & r2 & E2). rewrite E2.
    exists g2, r2. reflexivity.
Qed.

(** Walks through [plan_path] call by call and leaves one goal for each
    place where it can stop, the last one for the completed plan. *)
Ltac plan_path_walk env :=
  unfold plan_path, bind, modify, get, emit, lift, raise, ret;
  destruct (read_header env) as [?|[? ?]];
  [|destruct (load_obstacles env) as [?|?];
    [|match goal with
      | |- context [create_grid env ?d ?m] =>
          destruct (create_grid env d m) as [?|[[? ?] ?]]
      end;
      [|cbn [fst snd];
        match goal with
        | |- context [grid_at ?g ?a ?b] => destruct (grid_at g a b) as [?|?]
        end;
        [|match goal with
          | |- context [pick_goals env ?l ?s] =>
              let E := fresh "E" in
              let r := fresh "r" in
              destruct (pick_goals_result env l s) as (? & r & E);
              rewrite E; clear E; destruct r as [?|[]]
          end;
          [|match goal with
            | |- context [grid_at ?g ?a ?b] => destruct (grid_at g a b) as [?|?]
            end;
            [|match goal with
              | |- context [a_star env ?g ?a ?b ?t] =>
                  destruct (a_star env g a b t) as [?|?]
              end;
              [|match goal with
                | |- context [path_prune env ?q] =>
                    destruct (path_prune env q) as [?|?]
                end;
                [|match goal with
                  | |- context [path_simplify env ?g ?q] =>
                      destruct (path_simplify env g q) as [?|?]
                  end]]]]]]]];
  unfold state_of, cmds_of, result_of; simpl.

(** [plan_path] always leaves the target altitude at [TARGET_ALTITUDE]. *)
Lemma plan_path_target (env : Env) (s : Drone) :
  tp2 (target_position (state_of (plan_path env s))) = TARGET_ALTITUDE.
Proof.
  plan_path_walk env; reflexivity.
Qed.

(** Like [plan_path_walk], keeping what each call returned. *)
Ltac plan_path_walk_eq env :=
  unfold plan_path, bind, modify, get, emit, lift, raise, ret;
  destruct (read_header env) as [?|[? ?]] eqn:?;
  [|destruct (load_obstacles env) as [?|?] eqn:?;
    [|match goal with
      | |- context [create_grid env ?d ?m] =>
          destruct (create_grid env d m) as [?|[[? ?] ?]] eqn:?
      end;
      [|cbn [fst snd];
        match goal with
        | |- context [grid_at ?g ?a ?b] =>
            destruct (grid_at g a b) as [?|?] eqn:?
        end;
        [|match goal with
          | |- context [pick_goals env ?l ?s] =>
              let E := fresh "E" in
              let r := fresh "r" in
              destruct (pick_goals_result env l s) as (? & r & E);
              rewrite E; clear E; destruct r as [?|[]]
          end;
          [|match goal with
            | |- context [grid_at ?g ?a ?b] =>
                destruct (grid_at g a b) as [?|?] eqn:?
            end;
            [|match goal with
              | |- context [a_star env ?g ?a ?b ?t] =>
                  destruct (a_star env g a b t) as [?|?] eqn:?
              end;
              [|match goal with
                | |- context [path_prune env ?q] =>
                    destruct (path_prune env q) as [?|?] eqn:?
                end;
                [|match goal with
                  | |- context [path_simplify env ?g ?q] =>
                      destruct (path_simplify env g q) as [?|?] eqn:?
                  end]]]]]]]];
  unfold state_of, cmds_of, result_of; cbn [fst snd].

(** X5.  When [plan_path] completes, every collaborator has answered and
    the answers are chained: the obstacle data that was loaded went to
    [create_grid] with the safety distance 5; the grid it returned went to
    [a_star] (with the target altitude 5), its path to [path_prune], the
    pruned path, with the same grid, to [path_simplify].  The controller is
    in phase Planning; it has stored that grid and its offsets and the
    simplified path; the queue holds the waypoints generated from the
    simplified path with those offsets, one per path point; and exactly two
    messages went out: the home position [(lon0, lat0, 0)] read from the
    first line of the obstacle file (which gives the latitude first), then
    the very waypoint list that is now the queue. *)
Theorem plan_path_completed (env : Env) (s : Drone) :
  result_of (plan_path env s) = inr tt ->
  exists (lat lon : Q) (data : list (list Q)) (grid : Grid) (no eo : Q)
         (start goal : Cell) (p0 p1 p : list Cell),
    read_header env = inr (lat, lon) /\
    load_obstacles env = inr data /\
    create_grid env data SAFETY_DISTANCE = inr (grid, no, eo) /\
    a_star env grid start goal TARGET_ALTITUDE = inr p0 /\
    path_prune env p0 = inr p1 /\
    path_simplify env grid p1 = inr p /\
    flight_state (state_of (plan_path env s)) = PLANNING /\
    map_grid (state_of (plan_path env s)) = Some grid /\
    north_offset (state_of (plan_path env s)) = Some no /\
    east_offset (state_of (plan_path env s)) = Some eo /\
    path (state_of (plan_path env s)) = Some p /\
    waypoints (state_of (plan_path env s))
    = path_to_waypoints (arctan2 env) no eo p /\
    length (waypoints (state_of (plan_path env s))) = length p /\
    cmds_of (plan_path env s)
    = [SetHomePosition lon lat 0;
       SendWaypoints (path_to_waypoints (arctan2 env) no eo p)].
Proof.
  intro Hr.
  assert (K : forall r,
             r = plan_path env s -> result_of r = inr tt ->
             exists (lat lon : Q) (data : list (list Q)) (grid : Grid)
                    (no eo : Q) (start goal : Cell) (p0 p1 p : list Cell),
               read_header env = inr (lat, lon) /\
               load_obstacles env = inr data /\
               create_grid env data SAFETY_DISTANCE = inr (grid, no, eo) /\
               a_star env grid start goal TARGET_ALTITUDE = inr p0 /\
               path_prune env p0 = inr p1 /\
               path_simplify env grid p1 = inr p /\
               flight_state (state_of r) = PLANNING /\
               map_grid (state_of r) = Some grid /\
               north_offset (state_of r) = Some no /\
               east_offset (state_of r) = Some eo /\
               path (state_of r) = Some p /\
               waypoints (state_of r) = path_to_waypoints (arctan2 env) no eo p /\
               length (waypoints (state_of r)) = length p /\
               cmds_of r
               = [SetHomePosition lon lat 0;
                  SendWaypoints (path_to_waypoints (arctan2 env) no eo p)]).
  { intros r Er. subst r. plan_path_walk_eq env; intro Hx; try discriminate.
    do 11 eexists.
    repeat match goal with
           | |- _ /\ _ => split
           end;
      try eassumption; try reflexivity.
    apply path_to_waypoints_length. }
  exact (K _ eq_refl Hr).
Qed.

Lemma plan_path_completed_witness :
  exists (lat lon : Q) (data : list (list Q)) (grid : Grid) (no eo : Q)
         (start goal : Cell) (p0 p1 p : list Cell),
    read_header sample_env = inr (lat, lon) /\
    load_obstacles sample_env = inr data /\
    create_grid sample_env data SAFETY_DISTANCE = inr (grid, no, eo) /\
    a_star sample_env grid start goal TARGET_ALTITUDE = inr p0 /\
    path_prune sample_env p0 = inr p1 /\
    path_simplify sample_env grid p1 = inr p /\
    flight_state (state_of (plan_path sample_env sample_arming_state)) = PLANNING /\
    map_grid (state_of (plan_path sample_env sample_arming_state)) = Some grid /\
    north_offset (state_of (plan_path sample_env sample_arming_state)) = Some no /\
    east_offset (state_of (plan_path sample_env sample_arming_state)) = Some eo /\
    path (state_of (plan_path sample_env sample_arming_state)) = Some p /\
    waypoints (state_of (plan_path sample_env sample_arming_state))
    = path_to_waypoints (arctan2 sample_env) no eo p /\
    length (waypoints (state_of (plan_path sample_env sample_arming_state)))
    = length p /\
    cmds_of (plan_path sample_env sample_arming_state)
    = [SetHomePosition lon lat 0;
       SendWaypoints (path_to_waypoints (arctan2 sample_env) no eo p)].
Proof.
  apply (plan_path_completed sample_env sample_arming_state).
  vm_compute; reflexivity.
Defined.

Lemma plan_path_cmds (env : Env) (s : Drone) :
  Forall planning_cmd (cmds_of (plan_path env s)).
Proof.
  plan_path_walk env; repeat constructor.
Qed.

Lemma trace_two (env : Env) (e1 e2 : Event) (s : Drone) :
  trace env s [e1; e2]
  = [step_of (dispatch env e1 s);
     step_of (dispatch env e2 (state_of (dispatch env e1 s)))].
Proof. reflexivity. Qed.

(** X6.  Planning never stops the mission: after the armed-confirmed event
    in phase Arming, whether [plan_path] completed or raised, the next
    status event (whatever it reports) commands the takeoff to the target
    altitude 5 and the controller enters Takeoff. *)
Theorem takeoff_follows_planning (env : Env) (s : Drone) (g a' g' : bool) :
  flight_state s = ARMING -> in_mission s = true ->
  exists r,
    trace env s [STATE true g; STATE a' g']
    = [r; mkStep TAKEOFF [Takeoff TARGET_ALTITUDE] None] /\
    step_phase r = PLANNING.
Proof.
  intros Hst Hm. rewrite trace_two.
  rewrite (dispatch_arming_armed env s g Hst Hm).
  set (s1 := state_of (plan_path env (set_status true g s))).
  destruct (plan_path_phase env (set_status true g s)) as [P I].
  fold s1 in P, I.
  assert (T : tp2 (target_position s1) = TARGET_ALTITUDE)
    by apply plan_path_target.
  rewrite dispatch_status.
  rewrite state_callback_planning; [|simpl; rewrite I; exact Hm|exact P].
  exists (step_of (plan_path env (set_status true g s))). split; [|exact P].
  unfold step_of at 2. simpl. fold s1. rewrite T. reflexivity.
Qed.

Lemma takeoff_follows_planning_witness :
  exists r,
    trace no_path_env sample_arming_state [STATE true true; STATE false false]
    = [r; mkStep TAKEOFF [Takeoff TARGET_ALTITUDE] None] /\
    step_phase r = PLANNING.
Proof.
  apply (takeoff_follows_planning no_path_env sample_arming_state
           true false false); vm_compute; reflexivity.
Defined.

(* ------------------------------------------------------------------ *)
(** ** Every event follows the transition table *)

Ltac quiet_row := apply row_quiet; reflexivity.

Lemma dispatch_table (env : Env) (ev : Event) (s : Drone) :
  TableRow s (dispatch env ev s).
Proof.
  destruct ev as [n e d|vn ve vd|a g|lon lat alt|lon lat alt].
  - rewrite dispatch_position. set (s0 := set_local_position (n, e, d) s).
    destruct (States_eqb (flight_state s) TAKEOFF) eqn:T;
      [|destruct (States_eqb (flight_state s) WAYPOINT) eqn:W].
    + assert (Hst : flight_state s = TAKEOFF)
        by (destruct (flight_state s); try discriminate; reflexivity).
      rewrite local_position_callback_takeoff by exact Hst.
      destruct (Qltb _ _); [|quiet_row].
      destruct (waypoints s) as [|w ws] eqn:Q.
      * rewrite waypoint_transition_nil by exact Q.
        apply row_empty_pop; try reflexivity; assumption.
      * rewrite (waypoint_transition_cons s0 w ws Q).
        apply (row_next_waypoint _ _ w); try reflexivity; auto.
    + assert (Hst : flight_state s = WAYPOINT)
        by (destruct (flight_state s); try discriminate; reflexivity).
      rewrite local_position_callback_waypoint by exact Hst.
      destruct (_ && _); [|quiet_row].
      change (waypoints s0) with (waypoints s).
      destruct (waypoints s) as [|w ws] eqn:Q; simpl.
      * destruct (Qltb (np_norm2 _ _) 1); [|apply row_quiet; auto].
        apply row_land; try reflexivity; assumption.
      * rewrite (waypoint_transition_cons s0 w ws Q).
        apply (row_next_waypoint _ _ w); try reflexivity; auto.
    + rewrite local_position_callback_other;
        [quiet_row| |]; simpl; intro E; rewrite E in *; discriminate.
  - rewrite dispatch_velocity. set (s0 := set_local_velocity (vn, ve, vd) s).
    destruct (States_eqb (flight_state s) LANDING) eqn:L.
    + assert (Hst : flight_state s = LANDING)
        by (destruct (flight_state s); try discriminate; reflexivity).
      rewrite velocity_callback_landing by exact Hst.
      destruct (_ && _); [|quiet_row].
      apply row_disarm; try reflexivity; assumption.
    + rewrite velocity_callback_other;
        [quiet_row|]; simpl; intro E; rewrite E in *; discriminate.
  - rewrite dispatch_status. set (s0 := set_status a g s).
    destruct (in_mission s) eqn:I;
      [|rewrite state_callback_idle by exact I; apply row_quiet; auto].
    destruct (flight_state s) eqn:P.
    + rewrite state_callback_manual by assumption.
      apply row_arm; try reflexivity; auto.
    + destruct a.
      * rewrite state_callback_arming by (try assumption; reflexivity).
        destruct (plan_path_phase env s0) as [P1 I1].
        apply row_plan; auto. apply plan_path_cmds.
      * rewrite state_callback_not_armed by (try assumption; reflexivity).
        apply row_quiet; auto.
    + rewrite state_callback_flying by (left; exact P). apply row_quiet; auto.
    + rewrite state_callback_flying by (right; left; exact P).
      apply row_quiet; auto.
    + rewrite state_callback_flying by (right; right; exact P).
      apply row_quiet; auto.
    + rewrite state_callback_disarming by assumption.
      apply row_finish; try reflexivity; auto.
    + rewrite state_callback_planning by assumption.
      apply row_takeoff; try reflexivity; auto.
  - simpl. quiet_row.
  - simpl. quiet_row.
Qed.

Lemma allowed_edge_refl (a : States) : allowed_edge a a = true.
Proof. destruct a; reflexivity. Qed.

Lemma dispatch_edge (env : Env) (ev : Event) (s : Drone) :
  allowed_edge (flight_state s) (flight_state (state_of (dispatch env ev s)))
  = true.
Proof.
  destruct (dispatch_table env ev s);
    repeat match goal with
           | H : flight_state _ = _ |- _ => rewrite H; clear H
           | H : flight_state _ = _ \/ flight_state _ = _ |- _ => destruct H
           end;
    try reflexivity; apply allowed_edge_refl.
Qed.

(** X7.  The phases follow the mission order.  Over any run, from any
    state and under any telemetry, each event either leaves the phase as it
    is or moves it along one edge of the cycle Manual, Arming, Planning,
    Takeoff, Waypoint, Landing, Disarming, Manual: no phase is skipped and
    none is entered out of order. *)
Theorem phases_follow_mission_order (env : Env) (s : Drone) (evs : list Event) :
  chain allowed_edge (flight_state s) (map step_phase (trace env s evs)) = true.
Proof.
  revert s. induction evs as [|ev evs IH]; intro s; [reflexivity|].
  unfold trace in *. simpl.
  specialize (IH (state_of (dispatch env ev s))).
  destruct (run env (state_of (dispatch env ev s)) evs) as [s' tr].
  simpl in *. rewrite dispatch_edge. exact IH.
Qed.

(** X8.  The mission-active flag is never set by the controller: an event
    leaves it as it is, except that a status event handled in phase
    Disarming with the flag set moves to Manual and clears it. *)
Theorem mission_flag_only_cleared (env : Env) (ev : Event) (s : Drone) :
  in_mission (state_of (dispatch env ev s)) = in_mission s \/
  (flight_state s = DISARMING /\ in_mission s = true /\ is_status ev = true /\
   flight_state (state_of (dispatch env ev s)) = MANUAL /\
   in_mission (state_of (dispatch env ev s)) = false).
Proof.
  destruct (dispatch_table env ev s); try (left; assumption).
  right. repeat split; try assumption.
  destruct ev as [n e d|vn ve vd|a g|lon lat alt|lon lat alt];
    try reflexivity; exfalso.
  - rewrite dispatch_position, local_position_callback_other in H1;
      simpl in *; congruence.
  - rewrite dispatch_velocity, velocity_callback_other in H1;
      simpl in *; congruence.
  - simpl in H1. discriminate.
  - simpl in H1. discriminate.
Qed.

(** X9.  Every command is issued on its own transition only.  If handling
    an event issues a command, the phases before and after are: Manual to
    Arming for [arm()] and [take_control()]; Arming to Planning for the
    home position and the waypoint list; Planning to Takeoff for
    [takeoff()], with the stored target altitude; Takeoff or Waypoint to
    Waypoint for a position command, which is the command for the head of
    the queue, popped by this event; Waypoint to Landing for [land()], and
    only with an empty queue; Landing to Disarming for [disarm()] and
    [release_control()]; Disarming to Manual for [stop()]. *)
Theorem commands_issued_on_their_transition
  (env : Env) (ev : Event) (s : Drone) (c : Command) :
  In c (cmds_of (dispatch env ev s)) ->
  issued_on c s (state_of (dispatch env ev s)).
Proof.
  intro Hin.
  destruct (dispatch_table env ev s) as
    [C|? ? ? C|? ? ? F|? ? ? C|w ? ? ? C|? ? ? C|? ? ? C|? ? C|? ? ? C];
    try (rewrite C in Hin; simpl in Hin).
  - contradiction.
  - destruct Hin as [<-|[<-|[]]]; simpl; auto.
  - rewrite Forall_forall in F. specialize (F c Hin).
    destruct c; simpl in F; try contradiction; simpl; auto.
  - destruct Hin as [<-|[]]; simpl; auto.
  - destruct Hin as [<-|[]]. unfold cmd_of_waypoint at 1. simpl.
    split; [assumption|]. split; [assumption|]. exists w. auto.
  - contradiction.
  - destruct Hin as [<-|[]]; simpl; auto.
  - destruct Hin as [<-|[<-|[]]]; simpl; auto.
  - destruct Hin as [<-|[]]; simpl; auto.
Qed.

Lemma commands_issued_on_their_transition_witness :
  issued_on Land
    (final sample_env init (firstn 7 sample_mission))
    (state_of (dispatch sample_env (LOCAL_POSITION 3 (-(3)) (-(5)))
                 (final sample_env init (firstn 7 sample_mission)))).
Proof.
  apply (commands_issued_on_their_transition sample_env
           (LOCAL_POSITION 3 (-(3)) (-(5)))
           (final sample_env init (firstn 7 sample_mission)) Land).
  vm_compute. left. reflexivity.
Defined.

(* ------------------------------------------------------------------ *)
(** ** Waypoints are dispatched in order *)

Lemma planned_step (env : Env) (ev : Event) (s : Drone) :
  planned s ->
  planned (state_of (dispatch env ev s)) /\
  position_cmds (cmds_of (dispatch env ev s))
  ++ map cmd_of_waypoint (waypoints (state_of (dispatch env ev s)))
  = map cmd_of_waypoint (waypoints s).
Proof.
  intro Hp. unfold planned in *.
  destruct (dispatch_table env ev s) as
    [C ? P I Q|P0 I0 P C ? I Q|P0 I0 P F I|P0 I0 P C ? I Q|w P0 Q P C ? I
    |P0 Q0 P C ? I Q|P0 Q0 P C ? I Q|P0 P C ? I Q|P0 I0 P C ? I Q].
  - rewrite C, P, I, Q. auto.
  - exfalso. destruct Hp as [[Hx _]|Hx]; congruence.
  - exfalso. destruct Hp as [[_ Hx]|Hx]; congruence.
  - rewrite C, P, Q. simpl. split; [left; split; discriminate|reflexivity].
  - rewrite C, P, Q. simpl. split; [left; split; discriminate|reflexivity].
  - rewrite C, P, Q, Q0. simpl. split; [left; split; discriminate|reflexivity].
  - rewrite C, P, Q, Q0. simpl. split; [left; split; discriminate|reflexivity].
  - rewrite C, P, Q. simpl. split; [left; split; discriminate|reflexivity].
  - rewrite C, I, Q. simpl. auto.
Qed.

(** X10.  Waypoints are dispatched one at a time, first in first out.  From
    any state in which the plan has been made, over any run, the position
    commands issued so far followed by the commands for the waypoints still
    queued are exactly the commands for the queue at the start: no waypoint
    is skipped, repeated or reordered, and none is added. *)
Theorem waypoints_dispatched_in_order (env : Env) (s : Drone) (evs : list Event) :
  planned s ->
  position_cmds (trace_cmds (trace env s evs))
  ++ map cmd_of_waypoint (waypoints (final env s evs))
  = map cmd_of_waypoint (waypoints s).
Proof.
  revert s. induction evs as [|ev evs IH]; intros s Hp; [reflexivity|].
  destruct (planned_step env ev s Hp) as [Hp' E].
  specialize (IH _ Hp'). unfold trace, final, trace_cmds in *. simpl.
  destruct (run env (state_of (dispatch env ev s)) evs) as [s' tr].
  simpl in *. unfold position_cmds in *.
  rewrite filter_app, <- app_assoc, IH. exact E.
Qed.

Lemma waypoints_dispatched_in_order_witness :
  position_cmds
    (trace_cmds (trace sample_env sample_planned_state
                   (skipn 4 sample_mission)))
  ++ map cmd_of_waypoint
       (waypoints (final sample_env sample_planned_state
                     (skipn 4 sample_mission)))
  = map cmd_of_waypoint (waypoints sample_planned_state).
Proof.
  apply (waypoints_dispatched_in_order sample_env sample_planned_state
           (skipn 4 sample_mission)).
  left. split; vm_compute; discriminate.
Defined.

Example sample_dispatch_order :
  position_cmds (trace_cmds (trace sample_env init sample_mission))
  = [CmdPosition 0 0 5 0; CmdPosition 3 (-(3)) 5 (-(6))].
Proof. vm_compute. reflexivity. Qed.

(* ------------------------------------------------------------------ *)
(** ** Grid and local coordinates *)

Lemma py_int_small (x : Q) : Qabs x < 1 -> py_int x = 0%Z.
Proof.
  intro H. apply Qabs_Qlt_condition in H. destruct H as [Hl Hu].
  destruct x as [n d]. unfold py_int, Qlt in *. simpl in *.
  apply Z.quot_small_iff; lia.
Qed.

(** X13.  [local_to_grid] truncates toward zero, it does not round down: a
    position whose computed difference from the grid origin along north (or
    east) is less than 1 in magnitude, on either side of the origin, gets
    north (or east) index 0.  So a position up to one cell outside the
    southern or western edge of the map is not told apart from the first
    row or column. *)
Theorem local_to_grid_near_origin (no eo : Q) (p : Vec3) :
  (Qabs (b64_sub (v0 p) no) < 1 -> c0 (local_to_grid no eo p) = 0%Z) /\
  (Qabs (b64_sub (v1 p) eo) < 1 -> c1 (local_to_grid no eo p) = 0%Z).
Proof.
  unfold local_to_grid, c0, c1. cbn [fst snd]. split; apply py_int_small.
Qed.

Lemma local_to_grid_near_origin_witness :
  c0 (local_to_grid (-(316)) (-(445)) (-(633 # 2), 0, 0)) = 0%Z.
Proof.
  apply (proj1 (local_to_grid_near_origin (-(316)) (-(445))
                  (-(633 # 2), 0, 0))).
  vm_compute. reflexivity.
Defined.

(** X14.  With integer grid offsets (and indices and indices plus offsets
    below [2^53] in magnitude) each generated waypoint leads back to its
    path point: read as a local position (north, east, down = minus the
    altitude), waypoint [i] is mapped by [local_to_grid] to the [i]-th cell
    of the path. *)
Theorem waypoint_back_to_cell
  (atan2 : Q -> Q -> Q) (no eo : Z) (p : list Cell) (i : nat) (cur : Cell) :
  nth_error p i = Some cur ->
  (Z.abs (c0 cur) < 2 ^ 53)%Z -> (Z.abs (c0 cur + no) < 2 ^ 53)%Z ->
  (Z.abs (c1 cur) < 2 ^ 53)%Z -> (Z.abs (c1 cur + eo) < 2 ^ 53)%Z ->
  exists w,
    nth_error (path_to_waypoints atan2 (inject_Z no) (inject_Z eo) p) i = Some w /\
    local_to_grid (inject_Z no) (inject_Z eo) (wp_north w, wp_east w, - wp_alt w)
    = cur.
Proof.
  intros H Hn _ He _.
  exists (waypoint_at atan2 (inject_Z no) (inject_Z eo) p i). split.
  - apply path_to_waypoints_nth. apply nth_error_Some. congruence.
  - unfold waypoint_at. rewrite (nth_error_nth _ _ _ H).
    cbn [wp_north wp_east wp_alt].
    destruct cur as [[n e] a]. unfold c0, c1, c2 in *. cbn [fst snd] in *.
    unfold local_to_grid, v0, v1, v2. cbn [fst snd].
    assert (En : b64_sub (inject_Z n + inject_Z no) (inject_Z no) = inject_Z n).
    { unfold b64_sub. transitivity (b64 (inject_Z n)); [|now apply b64_int].
      apply b64_ext; simpl; [lia|reflexivity]. }
    assert (Ee : b64_sub (inject_Z e + inject_Z eo) (inject_Z eo) = inject_Z e).
    { unfold b64_sub. transitivity (b64 (inject_Z e)); [|now apply b64_int].
      apply b64_ext; simpl; [lia|reflexivity]. }
    rewrite En, Ee.
    rewrite (py_int_Qeq (- - inject_Z a) (inject_Z a)) by ring.
    now rewrite !py_int_inject_Z.
Qed.

Lemma waypoint_back_to_cell_witness :
  exists w,
    nth_error (path_to_waypoints (fun y x => y - x) (inject_Z (-5)) (inject_Z (-5))
                 [(5, 5, 5); (8, 2, 5)]%Z) 1 = Some w /\
    local_to_grid (inject_Z (-5)) (inject_Z (-5))
      (wp_north w, wp_east w, - wp_alt w)
    = (8, 2, 5)%Z.
Proof.
  apply (waypoint_back_to_cell (fun y x => y - x) (-5) (-5)
           [(5, 5, 5); (8, 2, 5)]%Z 1 (8, 2, 5)%Z);
    vm_compute; reflexivity.
Defined.

(* ------------------------------------------------------------------ *)
(** ** Picking the goal *)

Lemma np_index_negative {A} (l : list A) (i : Z) (a : A) :
  (- Z.of_nat (length l) <= i < 0)%Z ->
  nth_error l (Z.to_nat (i + Z.of_nat (length l))) = Some a ->
  np_index l i = inr a.
Proof.
  intros [Hl Hu] Hn. unfold np_index.
  destruct (Z.ltb_spec i 0); [|lia].
  destruct (Z.leb_spec 0 (i + Z.of_nat (length l))); [|lia].
  destruct (Z.ltb_spec (i + Z.of_nat (length l)) (Z.of_nat (length l))); [|lia].
  cbn [andb]. now rewrite Hn.
Qed.

Lemma np_index_out_of_range {A} (l : list A) (i : Z) :
  (i < - Z.of_nat (length l) \/ Z.of_nat (length l) <= i)%Z ->
  np_index l i = inl IndexError.
Proof.
  intros H. unfold np_index.
  destruct (Z.ltb_spec i 0).
  - destruct (Z.leb_spec 0 (i + Z.of_nat (length l))); [|reflexivity].
    destruct (Z.ltb_spec (i + Z.of_nat (length l)) (Z.of_nat (length l)));
      [|reflexivity].
    lia.
  - destruct (Z.leb_spec 0 i); [|lia].
    destruct (Z.ltb_spec i (Z.of_nat (length l))); [lia|reflexivity].
Qed.

(** X15.  A pick south of a loaded map is not rejected as long as it is
    less than the map's height away from its first row: with
    [-rows <= int(ydata) < 0] the grid height is read from the row counted
    back from the northern edge, and the goal is stored with the negative
    north index, outside the map; [pick_goal] issues no command and changes
    nothing but the interactive goal.  Only a north index below [-rows] or
    from [rows] upward raises [IndexError], leaving the object as it
    was. *)
Theorem pick_goal_wraps_around
  (env : Env) (s : Drone) (x y : Q) (g : Grid) (no eo : Q) :
  map_grid s = Some g -> north_offset s = Some no -> east_offset s = Some eo ->
  (forall row alt,
     (- Z.of_nat (length g) <= py_int y < 0)%Z ->
     nth_error g (Z.to_nat (py_int y + Z.of_nat (length g))) = Some row ->
     np_index row (py_int x) = inr alt ->
     pick_goal env (x, y) s
     = (set_interactive_goal
          (local_to_global env
             (grid_to_local no eo (inject_Z (py_int y), inject_Z (py_int x), alt))
             (global_home s)) s, [], inr tt)) /\
  ((py_int y < - Z.of_nat (length g) \/ Z.of_nat (length g) <= py_int y)%Z ->
   pick_goal env (x, y) s = (s, [], inl IndexError)).
Proof.
  intros Hg Hn He. split.
  - intros row alt Hr Hrow Halt.
    assert (G : grid_at g (py_int y) (py_int x) = inr alt).
    { unfold grid_at. now rewrite (np_index_negative g (py_int y) row Hr Hrow). }
    unfold pick_goal, bind, get, lift, modify, raise, ret.
    cbn [fst snd]. rewrite Hg, G, Hn, He. reflexivity.
  - intro Hout.
    assert (G : grid_at g (py_int y) (py_int x) = inl IndexError).
    { unfold grid_at. now rewrite (np_index_out_of_range g (py_int y) Hout). }
    unfold pick_goal, bind, get, lift, modify, raise, ret.
    cbn [fst snd]. rewrite Hg, G. reflexivity.
Qed.

Lemma pick_goal_wraps_around_witness :
  pick_goal sample_env (23 # 10, -(3 # 2)) sample_planned_state
  = (set_interactive_goal
       (local_to_global sample_env
          (grid_to_local (-(5)) (-(5)) (inject_Z (-1), inject_Z 2, 0))
          (global_home sample_planned_state)) sample_planned_state,
     [], inr tt).
Proof.
  destruct (pick_goal_wraps_around sample_env sample_planned_state
              (23 # 10) (-(3 # 2)) sample_grid (-(5)) (-(5))) as [H _].
  - vm_compute; reflexivity.
  - vm_compute; reflexivity.
  - vm_compute; reflexivity.
  - apply (H (repeat 0 10) 0); clear H.
    + vm_compute. split; [intro X; discriminate X|reflexivity].
    + vm_compute; reflexivity.
    + vm_compute; reflexivity.
Defined.

(* ------------------------------------------------------------------ *)
(** ** Flying the queue *)

(** Exactly at the target both error tests of the callback pass. *)
Lemma at_target_guards (a b c : Q) :
  Qltb (np_norm2 (b64_sub a a) (b64_sub b b)) 3 = true /\
  Qltb (Qabs (b64_sub c (- - c))) 2 = true.
Proof.
  split.
  - rewrite !b64_sub_diag. vm_compute. reflexivity.
  - assert (E : b64_sub c (- - c) = 0).
    { unfold b64_sub. apply b64_zero. destruct c as [n d]. simpl. lia. }
    rewrite E. reflexivity.
Qed.

(** The arrival event for the current target passes both error tests. *)
Lemma dispatch_arrival (env : Env) (s : Drone) (w : Waypoint) :
  flight_state s = WAYPOINT -> target_position s = target_of_waypoint w ->
  let s0 := set_local_position (wp_north w, wp_east w, - wp_alt w) s in
  dispatch env (arrival w) s =
    if (0 <? length (waypoints s))%nat then waypoint_transition s0
    else if Qltb (np_norm2 (v0 (local_velocity s)) (v1 (local_velocity s))) 1
         then landing_transition s0 else (s0, [], inr tt).
Proof.
  intros Hst Ht s0. unfold arrival. rewrite dispatch_position. fold s0.
  rewrite local_position_callback_waypoint by exact Hst.
  unfold s0, set_local_position, v0, v1, v2.
  cbn [target_position local_position local_velocity waypoints fst snd].
  rewrite Ht. cbn [target_of_waypoint tp0 tp1 tp2].
  destruct (at_target_guards (wp_north w) (wp_east w) (wp_alt w)) as [H1 H2].
  rewrite H1, H2. reflexivity.
Qed.

(** X16.  A vehicle that reaches each target in turn flies the whole queue
    and lands.  From phase Waypoint with target [w0], queue [ws] and a
    horizontal speed (the norm of the stored velocity, as the callback
    computes it) below 1.0, the position events reporting the vehicle
    exactly at [w0] and then at each waypoint of [ws] in order make the
    controller command the waypoints of [ws] one after the other and then
    [land()], and nothing else; it ends in phase Landing with an empty
    queue. *)
Theorem flies_queue_and_lands (env : Env) (ws : list Waypoint) (s : Drone) (w0 : Waypoint) :
  flight_state s = WAYPOINT ->
  target_position s = target_of_waypoint w0 ->
  waypoints s = ws ->
  np_norm2 (v0 (local_velocity s)) (v1 (local_velocity s)) < 1 ->
  trace_cmds (trace env s (map arrival (w0 :: ws)))
  = map cmd_of_waypoint ws ++ [Land] /\
  flight_state (final env s (map arrival (w0 :: ws))) = LANDING /\
  waypoints (final env s (map arrival (w0 :: ws))) = [].
Proof.
  revert s w0. induction ws as [|w1 ws IH]; intros s w0 Hst Ht Hq Hv.
  - unfold trace, final. cbn [map]. rewrite run_single.
    rewrite (dispatch_arrival env s w0 Hst Ht). rewrite Hq.
    cbn [length Nat.ltb Nat.leb].
    apply Qltb_lt in Hv. rewrite Hv.
    repeat split. simpl. exact Hq.
  - assert (D : dispatch env (arrival w0) s
                = (after_waypoint w1 ws
                     (set_local_position (wp_north w0, wp_east w0, - wp_alt w0) s),
                   [cmd_of_waypoint w1], inr tt)).
    { rewrite (dispatch_arrival env s w0 Hst Ht). rewrite Hq.
      cbn [length Nat.ltb Nat.leb].
      apply waypoint_transition_cons. exact Hq. }
    specialize (IH (after_waypoint w1 ws
                      (set_local_position (wp_north w0, wp_east w0, - wp_alt w0) s))
                   w1 eq_refl eq_refl eq_refl Hv).
    destruct IH as (I1 & I2 & I3).
    unfold trace, final, trace_cmds in *.
    change (map arrival (w0 :: w1 :: ws))
      with (arrival w0 :: map arrival (w1 :: ws)).
    cbn [run]. rewrite D. unfold state_of at 1 2 3. cbn [fst snd].
    destruct (run env _ (map arrival (w1 :: ws))) as [s' tr].
    cbn [fst snd map concat] in *. unfold step_of at 1.
    cbn [step_cmds cmds_of fst snd app].
    rewrite I1. auto.
Qed.

Lemma flies_queue_and_lands_witness :
  trace_cmds
    (trace sample_env sample_waypoint_state
       (map arrival [mkWaypoint 0 0 5 0; mkWaypoint 3 (-(3)) 5 (-(6))]))
  = [CmdPosition 3 (-(3)) 5 (-(6)); Land].
Proof.
  destruct (flies_queue_and_lands sample_env [mkWaypoint 3 (-(3)) 5 (-(6))]
              sample_waypoint_state (mkWaypoint 0 0 5 0)) as [H _].
  - vm_compute; reflexivity.
  - vm_compute; reflexivity.
  - vm_compute; reflexivity.
  - vm_compute; reflexivity.
  - exact H.
Defined.
